(** * Odoo bulk unreserve script: a shallow embedding and its properties

    The program is [scripts/odoo-bulk-unreserve.py], a script pasted into an
    Odoo shell.  It selects stuck stock moves, prints a per-product table,
    releases the reservations of the moves' pickings in batches, commits,
    and prints the table again with the change of the available quantity.

    The script is embedded as a computation over a [world]: the ERP database
    seen by the open transaction, the durable (committed) database, and the
    log of what the script did to the outside (lines printed, release calls,
    commits).  The Odoo ORM is not part of the repository; the few operations
    the script uses ([search], [mapped], [filtered], [browse], slicing of
    record sets) are modelled after their documented behaviour, and the
    release operation [do_unreserve] is left abstract: any function from
    pickings and a database to a database.

    Quantities are binary64 floats, as in Python.  A [search] fails when its
    domain is malformed; failures on the side of the ERP (a lost connection,
    a refused release) are not modelled.  The script is the same for every
    interpreter, but [sum] is not: the embedding takes the version of the
    interpreter as a parameter. *)

From Stdlib Require Import String Ascii List Bool Arith ZArith Lia.
From Stdlib Require Import Floats DecimalString.
Import ListNotations.

Local Open Scope string_scope.
Local Open Scope list_scope.

(** ** Python values used by the script *)

Module Py.

(** A Python [str] is kept as the string of its UTF-8 bytes. *)
Definition nl : string := String (ascii_of_nat 10) EmptyString.

(** A byte of the form [10xxxxxx] continues a multi-byte character. *)
Definition is_continuation (c : ascii) : bool :=
  let n := nat_of_ascii c in ((128 <=? n) && (n <? 192))%nat.

(** [len(s)]: the number of characters (code points), not of bytes. *)
Fixpoint len (s : string) : nat :=
  match s with
  | EmptyString => 0
  | String c r => (if is_continuation c then 0 else 1) + len r
  end.

(** [s * n] *)
Fixpoint repeat_str (s : string) (n : nat) : string :=
  match n with
  | 0 => EmptyString
  | S k => s ++ repeat_str s k
  end.

(** [str(n)] for a non-negative [int]. *)
Definition str_nat (n : nat) : string := NilEmpty.string_of_uint (Nat.to_uint n).

(** [format(s, '<w')] and [format(s, '>w')]: pad with spaces up to width [w],
    never truncate. *)
Definition ljust (w : nat) (s : string) : string := s ++ repeat_str " " (w - len s).
Definition rjust (w : nat) (s : string) : string := repeat_str " " (w - len s) ++ s.

(** [x or d] for [x] a string or [False]: the empty string is falsy too. *)
Definition or_str (x : option string) (d : string) : string :=
  match x with
  | None => d
  | Some EmptyString => d
  | Some s => s
  end.

(** The integer nearest to [m * 2^e], ties to the even one: what the
    [.0f] presentation prints (the conversion is correctly rounded). *)
Definition round_half_even (m : positive) (e : Z) : Z :=
  if (0 <=? e)%Z then (Z.pos m * 2 ^ e)%Z
  else
    let d := (2 ^ (- e))%Z in
    let q := (Z.pos m / d)%Z in
    let r := (Z.pos m mod d)%Z in
    match (2 * r ?= d)%Z with
    | Lt => q
    | Gt => (q + 1)%Z
    | Eq => if Z.even q then q else (q + 1)%Z
    end.

Definition str_Z_abs (z : Z) : string := NilEmpty.string_of_uint (N.to_uint (Z.abs_N z)).

Definition sign_str (always : bool) (negative : bool) : string :=
  if negative then "-" else if always then "+" else "".

(** [format(x, '.0f')] ([always = false]) and [format(x, '+.0f')]
    ([always = true]) for a [float]; the sign of a nan is ignored. *)
Definition format_0f (always : bool) (x : float) : string :=
  match Prim2SF x with
  | S754_nan => sign_str always false ++ "nan"
  | S754_infinity s => sign_str always s ++ "inf"
  | S754_zero s => sign_str always s ++ "0"
  | S754_finite s m e => sign_str always s ++ str_Z_abs (round_half_even m e)
  end.

(** The interpreter the shell runs on: [sum] of floats changed with
    Python 3.12. *)
Inductive version := Before312 | From312.

(** [sum(l)] before 3.12: left to right, from [0]. *)
Definition sum_plain (l : list float) : float := fold_left PrimFloat.add l 0%float.

(** One turn of the loop of [sum] from 3.12 on (Neumaier's compensated
    summation): the running sum and the running compensation. *)
Definition neumaier_step (st : float * float) (x : float) : float * float :=
  let f_result := fst st in
  let c := snd st in
  let t := (f_result + x)%float in
  if (abs x <=? abs f_result)%float
  then (t, (c + ((f_result - t) + x))%float)
  else (t, (c + ((x - t) + f_result))%float).

(** [sum(l)] from 3.12 on: the first float is added to the integer [0],
    the others go through the compensated loop, and the compensation is
    added at the end when it is finite and not zero. *)
Definition sum_compensated (l : list float) : float :=
  match l with
  | [] => 0%float
  | x :: r =>
      let st := fold_left neumaier_step r ((0 + x)%float, 0%float) in
      if negb (is_zero (snd st)) && is_finite (snd st)
      then (fst st + snd st)%float
      else fst st
  end.

(** [sum(l)] for a list of floats.  The sum of no float is the integer [0],
    which every use in the script treats as the float [0]. *)
Definition sum (v : version) (l : list float) : float :=
  match v with
  | Before312 => sum_plain l
  | From312 => sum_compensated l
  end.

(** [range(start, stop, step)] for [step > 0], by fuel. *)
Fixpoint range_from (fuel start stop step : nat) : list nat :=
  match fuel with
  | 0 => []
  | S f => if (start <? stop)%nat then start :: range_from f (start + step) stop step else []
  end.
Definition range (start stop step : nat) : list nat :=
  range_from (stop - start) start stop step.

(** [l[i:j]] for [0 <= i]: out-of-range bounds are clamped. *)
Definition slice {A} (l : list A) (i j : nat) : list A := firstn (j - i) (skipn i l).

End Py.

(** ** The ERP data the script reads *)

(** A time stamp, as the ORM hands it out for a [Datetime] field. *)
Record datetime := mkDatetime
  { year : nat; month : nat; day : nat; hour : nat; minute : nat; second : nat }.

Fixpoint lex_ltb (a b : list nat) : bool :=
  match a, b with
  | x :: a', y :: b' => (x <? y)%nat || ((x =? y)%nat && lex_ltb a' b')
  | _, _ => false
  end.

Definition datetime_fields (d : datetime) : list nat :=
  [year d; month d; day d; hour d; minute d; second d].

(** Chronological order of time stamps. *)
Definition datetime_ltb (a b : datetime) : bool :=
  lex_ltb (datetime_fields a) (datetime_fields b).

(** The status of a stock move (the [state] selection of [stock.move]). *)
Inductive move_state :=
  | draft | waiting | confirmed | partially_available | assigned | done | cancel.

Definition move_state_name (s : move_state) : string :=
  match s with
  | draft => "draft"
  | waiting => "waiting"
  | confirmed => "confirmed"
  | partially_available => "partially_available"
  | assigned => "assigned"
  | done => "done"
  | cancel => "cancel"
  end.

(** The kind of a stock location (the [usage] selection of [stock.location]). *)
Inductive location_usage :=
  | supplier | view | internal | customer | inventory | production | transit.

Definition location_usage_name (u : location_usage) : string :=
  match u with
  | supplier => "supplier"
  | view => "view"
  | internal => "internal"
  | customer => "customer"
  | inventory => "inventory"
  | production => "production"
  | transit => "transit"
  end.

(** A [stock.move] record.  A many-to-one field that may be empty is an
    [option]; the product of a move is mandatory. *)
Module Move.
Record t := mk
  { id : nat;
    state : move_state;
    date : datetime;
    sale_line_id : option nat;
    product_id : nat;
    picking_id : option nat }.
End Move.

(** A [stock.quant] record; [location_usage] is what the dotted path
    [location_id.usage] reads. *)
Module Quant.
Record t := mk
  { id : nat;
    product_id : nat;
    location_usage : location_usage;
    quantity : float;
    reserved_quantity : float }.
End Quant.

(** The database: the two tables in the order [search] returns their rows,
    and the [default_code] (SKU) of each product, [None] for Odoo's [False]. *)
Record erp := mkErp
  { moves : list Move.t;
    quants : list Quant.t;
    default_code : nat -> option string }.

(** ** The fragment of the ORM the script uses *)

Module Orm.

(** The value of a field of a record. *)
Inductive fval :=
  | FSelection (s : string)
  | FDatetime (d : datetime)
  | FMany2one (r : option nat).

(** The right-hand side of a domain leaf. *)
Inductive value :=
  | VFalse
  | VStr (s : string)
  | VId (n : nat)
  | VStrs (l : list string).

Inductive operator := OpEq | OpNe | OpLt | OpIn.

Definition leaf : Type := string * operator * value.
Definition domain : Type := list leaf.

Definition digit (c : ascii) : option nat :=
  let n := nat_of_ascii c in
  if ((48 <=? n) && (n <=? 57))%nat then Some (n - 48) else None.

Fixpoint number (acc : nat) (l : list ascii) : option nat :=
  match l with
  | [] => Some acc
  | c :: r => match digit c with
              | Some d => number (10 * acc + d) r
              | None => None
              end
  end.

Definition is_leap (y : nat) : bool :=
  ((y mod 4 =? 0) && (negb (y mod 100 =? 0) || (y mod 400 =? 0)))%nat.

Definition days_in_month (y m : nat) : nat :=
  match m with
  | 2 => if is_leap y then 29 else 28
  | 4 | 6 | 9 | 11 => 30
  | _ => 31
  end.

Definition valid_datetime (d : datetime) : bool :=
  ((1 <=? year d) && (1 <=? month d) && (month d <=? 12)
   && (1 <=? day d) && (day d <=? days_in_month (year d) (month d))
   && (hour d <=? 23) && (minute d <=? 59) && (second d <=? 59))%nat.

Definition check_datetime (d : datetime) : option datetime :=
  if valid_datetime d then Some d else None.

(** The time stamp a string stands for in a comparison with a [Datetime]
    field: ["YYYY-MM-DD HH:MM:SS"], or ["YYYY-MM-DD"] for midnight of that
    day.  Anything else is refused. *)
Definition to_datetime (s : string) : option datetime :=
  match list_ascii_of_string s with
  | [y1; y2; y3; y4; "-"%char; m1; m2; "-"%char; d1; d2] =>
      match number 0 [y1; y2; y3; y4], number 0 [m1; m2], number 0 [d1; d2] with
      | Some y, Some m, Some d => check_datetime (mkDatetime y m d 0 0 0)
      | _, _, _ => None
      end
  | [y1; y2; y3; y4; "-"%char; m1; m2; "-"%char; d1; d2; " "%char;
     h1; h2; ":"%char; i1; i2; ":"%char; s1; s2] =>
      match number 0 [y1; y2; y3; y4], number 0 [m1; m2], number 0 [d1; d2],
            number 0 [h1; h2], number 0 [i1; i2], number 0 [s1; s2] with
      | Some y, Some m, Some d, Some h, Some i, Some sec =>
          check_datetime (mkDatetime y m d h i sec)
      | _, _, _, _, _, _ => None
      end
  | _ => None
  end.

(** One leaf against one field value.  [None]: the ORM raises, or the
    combination is outside the fragment modelled here. *)
Definition eval_leaf (f : fval) (op : operator) (v : value) : option bool :=
  match f, op, v with
  | FSelection s, OpIn, VStrs l => Some (existsb (String.eqb s) l)
  | FSelection s, OpEq, VStr t => Some (String.eqb s t)
  | FDatetime d, OpLt, VStr t =>
      match to_datetime t with
      | Some c => Some (datetime_ltb d c)
      | None => None
      end
  | FMany2one r, OpNe, VFalse =>
      Some (match r with Some _ => true | None => false end)
  | FMany2one r, OpEq, VId n =>
      Some (match r with Some k => (k =? n)%nat | None => false end)
  | _, _, _ => None
  end.

(** A domain is the conjunction of its leaves. *)
Fixpoint eval_domain (get : string -> option fval) (d : domain) : option bool :=
  match d with
  | [] => Some true
  | (name, op, v) :: rest =>
      match get name with
      | None => None
      | Some f =>
          match eval_leaf f op v, eval_domain get rest with
          | Some b, Some c => Some (b && c)
          | _, _ => None
          end
      end
  end.

Fixpoint filter_m {A} (p : A -> option bool) (l : list A) : option (list A) :=
  match l with
  | [] => Some []
  | x :: r =>
      match p x, filter_m p r with
      | Some b, Some r' => Some (if b then x :: r' else r')
      | _, _ => None
      end
  end.

Definition move_field (m : Move.t) (name : string) : option fval :=
  if String.eqb name "state" then Some (FSelection (move_state_name (Move.state m)))
  else if String.eqb name "date" then Some (FDatetime (Move.date m))
  else if String.eqb name "sale_line_id" then Some (FMany2one (Move.sale_line_id m))
  else if String.eqb name "product_id" then Some (FMany2one (Some (Move.product_id m)))
  else if String.eqb name "picking_id" then Some (FMany2one (Move.picking_id m))
  else None.

Definition quant_field (q : Quant.t) (name : string) : option fval :=
  if String.eqb name "product_id" then Some (FMany2one (Some (Quant.product_id q)))
  else if String.eqb name "location_id.usage"
       then Some (FSelection (location_usage_name (Quant.location_usage q)))
  else None.

(** [env['stock.move'].search(d)] and [env['stock.quant'].search(d)]. *)
Definition search_moves (e : erp) (d : domain) : option (list Move.t) :=
  filter_m (fun m => eval_domain (move_field m) d) (moves e).
Definition search_quants (e : erp) (d : domain) : option (list Quant.t) :=
  filter_m (fun q => eval_domain (quant_field q) d) (quants e).

(** The ids of a record set built from many-to-one values: no empty value,
    no duplicate, in the order of first appearance. *)
Fixpoint unique_from (seen : list nat) (l : list nat) : list nat :=
  match l with
  | [] => []
  | x :: r =>
      if existsb (Nat.eqb x) seen then unique_from seen r
      else x :: unique_from (x :: seen) r
  end.
Definition unique (l : list nat) : list nat := unique_from [] l.

Fixpoint present (l : list (option nat)) : list nat :=
  match l with
  | [] => []
  | Some x :: r => x :: present r
  | None :: r => present r
  end.

(** [moves.mapped('product_id').ids] and [moves.mapped('picking_id')]. *)
Definition mapped_product_id (ms : list Move.t) : list nat :=
  unique (map Move.product_id ms).
Definition mapped_picking_id (ms : list Move.t) : list nat :=
  unique (present (map Move.picking_id ms)).

(** [env['product.product'].browse(ids)]: the record set of these ids. *)
Definition browse (ids : list nat) : list nat := ids.

End Orm.

(** ** The world the script runs in *)

(** What the script does to the outside, in order.  [Print s] is one call of
    [print] with the string [s] (the line feed that [print] adds is not part
    of [s]); [DoUnreserve ps] is one call of [do_unreserve] on the pickings
    [ps]; [Commit] is one call of [env.cr.commit()]. *)
Inductive event :=
  | Print (line : string)
  | DoUnreserve (pickings : list nat)
  | Commit.

(** [db] is the database as the open transaction sees it, [durable] what has
    been committed. *)
Record world := mkWorld
  { db : erp;
    durable : erp;
    log : list event }.

(** A computation reads and changes the world, or stops with an error. *)
Definition M (A : Type) : Type := world -> option (A * world).

Definition ret {A} (a : A) : M A := fun w => Some (a, w).

Definition bind {A B} (c : M A) (k : A -> M B) : M B :=
  fun w => match c w with
           | Some (a, w') => k a w'
           | None => None
           end.

Notation "x <- c ;; k" := (bind c (fun x => k))
  (at level 61, c at next level, right associativity).
Notation "' pat <- c ;; k" := (bind c (fun x => match x with pat => k end))
  (at level 61, pat pattern, c at next level, right associativity).
Notation "c ;; k" := (bind c (fun _ => k))
  (at level 61, right associativity).

(** [for x in l: body], without and with a local variable the body updates. *)
Fixpoint for_each {A} (l : list A) (body : A -> M unit) : M unit :=
  match l with
  | [] => ret tt
  | x :: r => body x ;; for_each r body
  end.

Fixpoint for_acc {A S} (l : list A) (s : S) (body : A -> S -> M S) : M S :=
  match l with
  | [] => ret s
  | x :: r => s' <- body x s ;; for_acc r s' body
  end.

Definition print (line : string) : M unit :=
  fun w => Some (tt, mkWorld (db w) (durable w) (log w ++ [Print line])).

Definition commit : M unit :=
  fun w => Some (tt, mkWorld (db w) (db w) (log w ++ [Commit])).

Definition search_move (d : Orm.domain) : M (list Move.t) :=
  fun w => match Orm.search_moves (db w) d with
           | Some l => Some (l, w)
           | None => None
           end.

Definition search_quant (d : Orm.domain) : M (list Quant.t) :=
  fun w => match Orm.search_quants (db w) d with
           | Some l => Some (l, w)
           | None => None
           end.

(** [prod.default_code] *)
Definition read_default_code (prod : nat) : M (option string) :=
  fun w => Some (default_code (db w) prod, w).

(** ** The script's own data *)

(** One value of [before_state]. *)
Module Snapshot.
Record t := mk
  { sku : option string;
    on_hand : float;
    reserved : float;
    available : float;
    stuck_moves : nat }.
End Snapshot.

(** A Python [dict] keyed by product id: the items in insertion order,
    one per key. *)
Definition dict : Type := list (nat * Snapshot.t).

(** [d[k] = v]: a key already present keeps its place. *)
Fixpoint dict_set (d : dict) (k : nat) (v : Snapshot.t) : dict :=
  match d with
  | [] => [(k, v)]
  | (k', v') :: r => if (k' =? k)%nat then (k', v) :: r else (k', v') :: dict_set r k v
  end.

Fixpoint dict_get (d : dict) (k : nat) : option Snapshot.t :=
  match d with
  | [] => None
  | (k', v') :: r => if (k' =? k)%nat then Some v' else dict_get r k
  end.

(** ** A small database for the examples *)

Module Fixture.

Definition old : datetime := mkDatetime 2023 12 31 23 59 59.

(** Moves 1, 3 and 5 are stuck: products 10, 12 and 10, pickings 7, none
    and 8.  Move 2 is done, move 4 is dated at the cutoff, move 6 has no
    sales order line.  Product 10 has two quants in internal locations
    and one at a customer; product 12 has none. *)
Definition shop : erp :=
  mkErp
    [ Move.mk 1 assigned old (Some 5) 10 (Some 7);
      Move.mk 2 done old (Some 5) 11 (Some 7);
      Move.mk 3 waiting old (Some 6) 12 None;
      Move.mk 4 confirmed (mkDatetime 2024 1 1 0 0 0) (Some 6) 12 (Some 9);
      Move.mk 5 confirmed old (Some 6) 10 (Some 8);
      Move.mk 6 confirmed old None 13 (Some 9) ]
    [ Quant.mk 1 10 internal 10 3;
      Quant.mk 2 10 internal 5 5;
      Quant.mk 3 10 customer 4 4 ]
    (fun p => if (p =? 10)%nat then Some "SKU-10" else None).

Definition empty : erp := mkErp [] [] (fun _ => None).

(** A release operation: [held] pairs a picking with a quant it holds a
    reservation on; releasing the picking clears that reservation. *)
Definition release (held : list (nat * nat)) (pickings : list nat) (e : erp) : erp :=
  mkErp (moves e)
        (map (fun q =>
                if existsb (fun h => (snd h =? Quant.id q)%nat
                                     && existsb (Nat.eqb (fst h)) pickings) held
                then Quant.mk (Quant.id q) (Quant.product_id q)
                              (Quant.location_usage q) (Quant.quantity q) 0
                else q)
             (quants e))
        (default_code e).

(** Picking 8 holds the five units reserved on quant 2. *)
Definition do_unreserve : list nat -> erp -> erp := release [(8, 2)].

End Fixture.

(** A database whose stuck moves belong to no picking. *)
Module Orphans.

Definition shop : erp :=
  mkErp
    [ Move.mk 1 assigned Fixture.old (Some 5) 10 None;
      Move.mk 2 waiting Fixture.old (Some 6) 11 None ]
    [ Quant.mk 1 10 internal 4 4 ]
    (fun _ => None).

End Orphans.

(** ** The script *)

Import Orm Py.

(** Line 9. *)
Definition cutoff_date : string := "2024-01-01".

(** Line 63, as shipped. *)
Definition DO_UNRESERVE : bool := true.

(** Line 71. *)
Definition batch_size : nat := 100.

(** Lines 11-15. *)
Definition stuck_domain : domain :=
  [ ("state", OpIn, VStrs ["assigned"; "confirmed"; "waiting"; "partially_available"]);
    ("date", OpLt, VStr cutoff_date);
    ("sale_line_id", OpNe, VFalse) ].

(** Lines 36-39 and 92-95. *)
Definition quant_domain (prod_id : nat) : domain :=
  [ ("product_id", OpEq, VId prod_id);
    ("location_id.usage", OpEq, VStr "internal") ].

Section Interpreter.

(** The version of the interpreter. *)
Variable python : Py.version.

Section Script.

(** The release operation of the ERP on a set of pickings: whatever it
    does to the database. *)
Variable do_unreserve : list nat -> erp -> erp.

(** [batch.do_unreserve()] *)
Definition unreserve (batch : list nat) : M unit :=
  fun w => Some (tt, mkWorld (do_unreserve batch (db w)) (durable w)
                             (log w ++ [DoUnreserve batch])).

(** STEP 1: Define target (lines 9-22). *)
Definition step1 : M (list Move.t * list nat) :=
  stuck_moves <- search_move stuck_domain ;;
  print (nl ++ "Found " ++ str_nat (length stuck_moves)
            ++ " stuck moves before " ++ cutoff_date) ;;
  let product_ids := mapped_product_id stuck_moves in
  let products := browse product_ids in
  print ("Affecting " ++ str_nat (length products) ++ " unique products" ++ nl) ;;
  ret (stuck_moves, products).

(** STEP 2: BEFORE snapshot (lines 28-57). *)
Definition step2 (stuck_moves : list Move.t) (products : list nat) : M dict :=
  print (repeat_str "=" 80) ;;
  print "BEFORE UNRESERVE - Top 20 affected products:" ;;
  print (repeat_str "=" 80) ;;
  print (ljust 30 "SKU" ++ " " ++ rjust 12 "On Hand" ++ " " ++ rjust 12 "Reserved"
           ++ " " ++ rjust 12 "Available" ++ " " ++ rjust 12 "Stuck Moves") ;;
  print (repeat_str "-" 80) ;;
  before_state <-
    for_acc (firstn 20 products) ([] : dict) (fun prod before_state =>
      quants <- search_quant (quant_domain prod) ;;
      let on_hand := sum python (map Quant.quantity quants) in
      let reserved := sum python (map Quant.reserved_quantity quants) in
      let available := (on_hand - reserved)%float in
      let prod_stuck :=
        length (filter (fun m => (Move.product_id m =? prod)%nat) stuck_moves) in
      default_code <- read_default_code prod ;;
      let before_state :=
        dict_set before_state prod
                 (Snapshot.mk default_code on_hand reserved available prod_stuck) in
      print (ljust 30 (or_str default_code "N/A")
               ++ " " ++ rjust 12 (format_0f false on_hand)
               ++ " " ++ rjust 12 (format_0f false reserved)
               ++ " " ++ rjust 12 (format_0f false available)
               ++ " " ++ rjust 12 (str_nat prod_stuck)) ;;
      ret before_state) ;;
  print (nl ++ repeat_str "=" 80) ;;
  print "REVIEW ABOVE. To proceed with unreserve, set DO_UNRESERVE = True and re-run" ;;
  print (repeat_str "=" 80) ;;
  ret before_state.

(** STEP 4: AFTER snapshot (lines 85-103). *)
Definition step4 (before_state : dict) : M unit :=
  print (nl ++ repeat_str "=" 80) ;;
  print "AFTER UNRESERVE:" ;;
  print (repeat_str "=" 80) ;;
  print (ljust 30 "SKU" ++ " " ++ rjust 12 "On Hand" ++ " " ++ rjust 12 "Reserved"
           ++ " " ++ rjust 12 "Available" ++ " " ++ rjust 12 "Delta") ;;
  print (repeat_str "-" 80) ;;
  for_each before_state (fun '(prod_id, before) =>
    quants <- search_quant (quant_domain prod_id) ;;
    let on_hand := sum python (map Quant.quantity quants) in
    let reserved := sum python (map Quant.reserved_quantity quants) in
    let available := (on_hand - reserved)%float in
    let delta := (available - Snapshot.available before)%float in
    print (ljust 30 (or_str (Snapshot.sku before) "N/A")
             ++ " " ++ rjust 12 (format_0f false on_hand)
             ++ " " ++ rjust 12 (format_0f false reserved)
             ++ " " ++ rjust 12 (format_0f false available)
             ++ " " ++ rjust 12 (format_0f true delta))) ;;
  print (nl ++ "✓ Done! Available inventory increased by the delta shown.").

(** STEP 3: UNRESERVE (lines 65-106), for either value of the flag. *)
Definition step3 (DO_UNRESERVE : bool) (stuck_moves : list Move.t)
                 (before_state : dict) : M unit :=
  if DO_UNRESERVE then
    print (nl ++ "Unreserving...") ;;
    let pickings := mapped_picking_id stuck_moves in
    print ("Processing " ++ str_nat (length pickings) ++ " pickings...") ;;
    let total := length pickings in
    for_each (range 0 total batch_size) (fun i =>
      let batch := slice pickings i (i + batch_size) in
      unreserve batch ;;
      print ("  Processed " ++ str_nat (Nat.min (i + batch_size) total)
               ++ "/" ++ str_nat total)) ;;
    commit ;;
    print (nl ++ "✓ Unreserve complete!") ;;
    step4 before_state
  else
    print (nl ++ "DO_UNRESERVE is False - no changes made.") ;;
    print "To execute: change DO_UNRESERVE = True and paste script again.".

(** The whole script, for either value of the flag on line 63. *)
Definition script (DO_UNRESERVE : bool) : M unit :=
  '(stuck_moves, products) <- step1 ;;
  before_state <- step2 stuck_moves products ;;
  step3 DO_UNRESERVE stuck_moves before_state.

(** A fresh shell session on the database [e]: nothing pending, nothing
    logged. *)
Definition session (e : erp) : world := mkWorld e e [].

(** A run of the script on [e]. *)
Definition run (DO_UNRESERVE : bool) (e : erp) : option world :=
  match script DO_UNRESERVE (session e) with
  | Some (_, w) => Some w
  | None => None
  end.

End Script.

(** ** What the properties are stated with *)

(** The cutoff, as a time stamp: midnight of 1 January 2024. *)
Definition cutoff : datetime := mkDatetime 2024 1 1 0 0 0.

Definition qualifying (s : move_state) : bool :=
  match s with
  | assigned | confirmed | waiting | partially_available => true
  | draft | done | cancel => false
  end.

Definition has_sale_line (m : Move.t) : bool :=
  match Move.sale_line_id m with
  | Some _ => true
  | None => false
  end.

(** A move the script is after. *)
Definition is_stuck (m : Move.t) : bool :=
  qualifying (Move.state m) && datetime_ltb (Move.date m) cutoff && has_sale_line m.

Definition selected (e : erp) : list Move.t := filter is_stuck (moves e).

(** The products touched by the selected moves, and their pickings. *)
Definition affected_products (e : erp) : list nat :=
  mapped_product_id (selected e).
Definition stuck_pickings (e : erp) : list nat :=
  mapped_picking_id (selected e).

(** The products of the Before table. *)
Definition reported_products (e : erp) : list nat := firstn 20 (affected_products e).

Definition is_internal (u : location_usage) : bool :=
  match u with
  | internal => true
  | _ => false
  end.

(** The quants of product [p] in internal locations. *)
Definition internal_quants (e : erp) (p : nat) : list Quant.t :=
  filter (fun q => (Quant.product_id q =? p)%nat && is_internal (Quant.location_usage q))
         (quants e).

Definition on_hand_of (e : erp) (p : nat) : float :=
  Py.sum python (map Quant.quantity (internal_quants e p)).
Definition reserved_of (e : erp) (p : nat) : float :=
  Py.sum python (map Quant.reserved_quantity (internal_quants e p)).
Definition available_of (e : erp) (p : nat) : float :=
  (on_hand_of e p - reserved_of e p)%float.

(** How many of the moves [ms] reference product [p]. *)
Definition stuck_count (ms : list Move.t) (p : nat) : nat :=
  length (filter (fun m => (Move.product_id m =? p)%nat) ms).

(** The entry of [before_state] for product [p]. *)
Definition snapshot_of (e : erp) (ms : list Move.t) (p : nat) : Snapshot.t :=
  Snapshot.mk (default_code e p) (on_hand_of e p) (reserved_of e p) (available_of e p)
              (stuck_count ms p).

(** A row of five columns, as both tables print it. *)
Definition row (c1 c2 c3 c4 c5 : string) : string :=
  ljust 30 c1 ++ " " ++ rjust 12 c2 ++ " " ++ rjust 12 c3 ++ " " ++ rjust 12 c4
    ++ " " ++ rjust 12 c5.

(** The row of the Before table for product [p]. *)
Definition before_row (e : erp) (ms : list Move.t) (p : nat) : string :=
  row (or_str (default_code e p) "N/A")
      (format_0f false (on_hand_of e p))
      (format_0f false (reserved_of e p))
      (format_0f false (available_of e p))
      (str_nat (stuck_count ms p)).

(** The row of the After table for one item of [before_state]. *)
Definition after_row (e : erp) (item : nat * Snapshot.t) : string :=
  row (or_str (Snapshot.sku (snd item)) "N/A")
      (format_0f false (on_hand_of e (fst item)))
      (format_0f false (reserved_of e (fst item)))
      (format_0f false (available_of e (fst item)))
      (format_0f true (available_of e (fst item) - Snapshot.available (snd item))%float).

Definition rule (c : string) : string := repeat_str c 80.

(** The lines around the two tables. *)
Definition before_header : list event :=
  [ Print (rule "=");
    Print "BEFORE UNRESERVE - Top 20 affected products:";
    Print (rule "=");
    Print (row "SKU" "On Hand" "Reserved" "Available" "Stuck Moves");
    Print (rule "-") ].

Definition before_footer : list event :=
  [ Print (nl ++ rule "=");
    Print "REVIEW ABOVE. To proceed with unreserve, set DO_UNRESERVE = True and re-run";
    Print (rule "=") ].

Definition after_header : list event :=
  [ Print (nl ++ rule "=");
    Print "AFTER UNRESERVE:";
    Print (rule "=");
    Print (row "SKU" "On Hand" "Reserved" "Available" "Delta");
    Print (rule "-") ].

Definition after_footer : list event :=
  [ Print (nl ++ "✓ Done! Available inventory increased by the delta shown.") ].

(** The release calls of a log, in order, and the number of its commits. *)
Fixpoint release_calls (l : list event) : list (list nat) :=
  match l with
  | [] => []
  | DoUnreserve ps :: r => ps :: release_calls r
  | _ :: r => release_calls r
  end.

Fixpoint commits (l : list event) : nat :=
  match l with
  | [] => 0
  | Commit :: r => S (commits r)
  | _ :: r => commits r
  end.

(** Order of first appearance: each element once, where it first occurs. *)
Fixpoint first_appearance (l : list nat) : list nat :=
  match l with
  | [] => []
  | x :: r => x :: filter (fun y => negb (y =? x)%nat) (first_appearance r)
  end.

(** The contiguous batches of at most [n] elements of [l], in order. *)
Definition batch_at {A} (n : nat) (l : list A) (k : nat) : list A :=
  firstn n (skipn (n * k) l).

(** The same world, with more in its log. *)
Definition emit (l : list event) (w : world) : world :=
  mkWorld (db w) (durable w) (log w ++ l).

(** What STEP 1 prints. *)
Definition found_lines (e : erp) : list event :=
  [ Print (nl ++ "Found " ++ str_nat (length (selected e))
              ++ " stuck moves before " ++ cutoff_date);
    Print ("Affecting " ++ str_nat (length (affected_products e))
              ++ " unique products" ++ nl) ].

(** The Before table for the moves [ms] and the products [products], and the
    After table for the items of [before_state], on the database [e]. *)
Definition before_table (e : erp) (ms : list Move.t) (products : list nat) : list event :=
  before_header ++ map (fun p => Print (before_row e ms p)) (firstn 20 products)
    ++ before_footer.

Definition after_table (e : erp) (before_state : dict) : list event :=
  after_header ++ map (fun item => Print (after_row e item)) before_state
    ++ after_footer.

(** The dictionary STEP 2 builds. *)
Definition before_state_of (e : erp) (ms : list Move.t) (products : list nat) : dict :=
  fold_left (fun d p => dict_set d p (snapshot_of e ms p)) (firstn 20 products) [].

(** The progress line after the batch that starts at [i]. *)
Definition progress (total i : nat) : string :=
  "  Processed " ++ str_nat (Nat.min (i + batch_size) total) ++ "/" ++ str_nat total.

(** What the batch loop does, to the log and to the database. *)
Definition release_log (pickings : list nat) : list event :=
  flat_map (fun i => [ DoUnreserve (slice pickings i (i + batch_size));
                       Print (progress (length pickings) i) ])
           (range 0 (length pickings) batch_size).

Definition released (do_unreserve : list nat -> erp -> erp)
                    (pickings : list nat) (e : erp) : erp :=
  fold_left (fun e' i => do_unreserve (slice pickings i (i + batch_size)) e')
            (range 0 (length pickings) batch_size) e.

(** The lines of the two branches of STEP 3 around the loop. *)
Definition unreserving_lines (pickings : list nat) : list event :=
  [ Print (nl ++ "Unreserving...");
    Print ("Processing " ++ str_nat (length pickings) ++ " pickings...") ].

Definition complete_line : event := Print (nl ++ "✓ Unreserve complete!").

Definition skipped_lines : list event :=
  [ Print (nl ++ "DO_UNRESERVE is False - no changes made.");
    Print "To execute: change DO_UNRESERVE = True and paste script again." ].

(** * Properties *)

Local Open Scope nat_scope.

(** ** The model on small inputs *)

Example format_0f_ties_to_even :
  map (format_0f false) [0.5; 1.5; 2.5; 3.5; 1234567.25]%float
  = ["0"; "2"; "2"; "4"; "1234567"].
Proof. reflexivity. Qed.

Example format_0f_signs :
  map (format_0f true) [5; 0; -0.25; -7; infinity; neg_infinity; nan]%float
  = ["+5"; "+0"; "-0"; "-7"; "+inf"; "-inf"; "+nan"].
Proof. reflexivity. Qed.

Example sum_empty (v : Py.version) : Py.sum v [] = 0%float.
Proof. destruct v; reflexivity. Qed.

Example sum_small (v : Py.version) :
  Py.sum v [10; 5]%float = 15%float /\ Py.sum v [3; 5]%float = 8%float.
Proof. destruct v; split; reflexivity. Qed.

(** The two summations differ where rounding errors accumulate. *)
Example sum_rounding :
  Py.sum Py.Before312 [1; 0x1p-53; 0x1p-53]%float = 1%float
  /\ Py.sum Py.From312 [1; 0x1p-53; 0x1p-53]%float = 0x1.0000000000001p+0%float.
Proof. split; reflexivity. Qed.

Example range_250 : range 0 250 100 = [0; 100; 200] /\ range 0 200 100 = [0; 100].
Proof. split; reflexivity. Qed.

Example slice_clamps : slice [1; 2; 3; 4; 5] 3 103 = [4; 5].
Proof. reflexivity. Qed.

Example len_counts_characters : len "✓ Done" = 6 /\ String.length "✓ Done" = 8.
Proof. split; reflexivity. Qed.

Example to_datetime_forms :
  to_datetime "2024-01-01" = Some (mkDatetime 2024 1 1 0 0 0)
  /\ to_datetime "2023-12-31 23:59:59" = Some Fixture.old
  /\ to_datetime "2023-02-29" = None
  /\ to_datetime "01/01/2024" = None.
Proof. repeat split; reflexivity. Qed.

Example search_on_shop :
  option_map (map Move.id) (search_moves Fixture.shop stuck_domain) = Some [1; 3; 5]
  /\ mapped_product_id (selected Fixture.shop) = [10; 12]
  /\ mapped_picking_id (selected Fixture.shop) = [7; 8].
Proof. repeat split; reflexivity. Qed.

(** ** Time stamps are strictly ordered *)

Lemma lex_ltb_irrefl (a : list nat) : lex_ltb a a = false.
Proof.
  induction a as [|x a IH]; simpl; [reflexivity |].
  rewrite Nat.ltb_irrefl, Nat.eqb_refl, IH. reflexivity.
Qed.

Lemma lex_ltb_trans (a b c : list nat) :
  lex_ltb a b = true -> lex_ltb b c = true -> lex_ltb a c = true.
Proof.
  revert b c. induction a as [|x a IH]; intros [|y b] [|z c]; simpl;
    try discriminate.
  rewrite !orb_true_iff, !andb_true_iff, !Nat.ltb_lt, !Nat.eqb_eq.
  intros [Hxy | [Hxy Hab]] [Hyz | [Hyz Hbc]].
  - left. lia.
  - left. lia.
  - left. lia.
  - right. split; [lia | apply (IH b c); assumption].
Qed.

Lemma datetime_ltb_irrefl (a : datetime) : datetime_ltb a a = false.
Proof. apply lex_ltb_irrefl. Qed.

Lemma datetime_ltb_trans (a b c : datetime) :
  datetime_ltb a b = true -> datetime_ltb b c = true -> datetime_ltb a c = true.
Proof. apply lex_ltb_trans. Qed.

(** ** The ORM fragment *)

Lemma filter_m_total {A} (p : A -> option bool) (q : A -> bool) (l : list A) :
  (forall x, p x = Some (q x)) -> filter_m p l = Some (filter q l).
Proof.
  intros Hp. induction l as [|x r IH]; simpl.
  - reflexivity.
  - rewrite Hp, IH. reflexivity.
Qed.

Lemma cutoff_date_parses : to_datetime cutoff_date = Some cutoff.
Proof. reflexivity. Qed.

Lemma qualifying_names (s : move_state) :
  existsb (String.eqb (move_state_name s))
          ["assigned"; "confirmed"; "waiting"; "partially_available"] = qualifying s.
Proof. destruct s; reflexivity. Qed.

Lemma stuck_domain_eval (m : Move.t) :
  eval_domain (move_field m) stuck_domain = Some (is_stuck m).
Proof.
  unfold stuck_domain, is_stuck, has_sale_line.
  cbn -[existsb datetime_ltb to_datetime cutoff_date].
  rewrite qualifying_names, cutoff_date_parses.
  destruct (qualifying (Move.state m)), (datetime_ltb (Move.date m) cutoff),
    (Move.sale_line_id m); reflexivity.
Qed.

Lemma quant_domain_eval (p : nat) (q : Quant.t) :
  eval_domain (quant_field q) (quant_domain p)
  = Some ((Quant.product_id q =? p)%nat && is_internal (Quant.location_usage q)).
Proof.
  destruct q as [i p' u qty res]; destruct u; cbn;
    rewrite ?andb_true_r, ?andb_false_r; reflexivity.
Qed.

Lemma search_moves_stuck (e : erp) : search_moves e stuck_domain = Some (selected e).
Proof. apply filter_m_total, stuck_domain_eval. Qed.

Lemma search_quants_internal (e : erp) (p : nat) :
  search_quants e (quant_domain p) = Some (internal_quants e p).
Proof. apply filter_m_total. intros q. apply quant_domain_eval. Qed.

(** ** Record sets without duplicates *)

Lemma existsb_eqb_In (x : nat) (l : list nat) :
  existsb (Nat.eqb x) l = true <-> In x l.
Proof.
  rewrite existsb_exists. split.
  - intros [y [Hy Heq]]. apply Nat.eqb_eq in Heq. now subst.
  - intros H. exists x. split; [assumption | apply Nat.eqb_refl].
Qed.

Lemma unique_from_In (l seen : list nat) (x : nat) :
  In x (unique_from seen l) <-> In x l /\ ~ In x seen.
Proof.
  revert seen. induction l as [|y r IH]; intros seen; simpl.
  - tauto.
  - destruct (existsb (Nat.eqb y) seen) eqn:E.
    + apply existsb_eqb_In in E. rewrite IH. split.
      * tauto.
      * intros [[-> | H] Hn]; [contradiction | tauto].
    + assert (Hy : ~ In y seen).
      { intros H. apply existsb_eqb_In in H. congruence. }
      simpl. rewrite IH. simpl. split.
      * intros [-> | [H Hn]]; [tauto | tauto].
      * intros [[-> | H] Hn]; [tauto |].
        destruct (Nat.eq_dec y x); [tauto | right; tauto].
Qed.

Lemma unique_from_NoDup (l seen : list nat) : NoDup (unique_from seen l).
Proof.
  revert seen. induction l as [|y r IH]; intros seen; simpl.
  - constructor.
  - destruct (existsb (Nat.eqb y) seen); [apply IH |].
    constructor; [| apply IH].
    rewrite unique_from_In. simpl. tauto.
Qed.

Lemma unique_In (l : list nat) (x : nat) : In x (unique l) <-> In x l.
Proof. unfold unique. rewrite unique_from_In. simpl. tauto. Qed.

Lemma unique_NoDup (l : list nat) : NoDup (unique l).
Proof. apply unique_from_NoDup. Qed.

Lemma filter_twice {A} (f g : A -> bool) (l : list A) :
  filter f (filter g l) = filter (fun x => g x && f x) l.
Proof.
  induction l as [|x r IH]; simpl; [reflexivity |].
  destruct (g x); simpl; [destruct (f x) |]; rewrite IH; reflexivity.
Qed.

Lemma unique_from_filter (l seen : list nat) :
  unique_from seen l
  = filter (fun y => negb (existsb (Nat.eqb y) seen)) (unique l).
Proof.
  unfold unique. revert seen. induction l as [|x r IH]; intros seen; simpl.
  - reflexivity.
  - rewrite (IH [x]), (IH seen), (IH (x :: seen)).
    destruct (existsb (Nat.eqb x) seen) eqn:E; simpl; rewrite filter_twice.
    + apply filter_ext_in. intros y _. simpl.
      destruct (Nat.eqb y x) eqn:Eyx; simpl.
      * apply Nat.eqb_eq in Eyx. subst y. rewrite E. reflexivity.
      * destruct (existsb (Nat.eqb y) seen); reflexivity.
    + f_equal. apply filter_ext. intros y. simpl.
      destruct (Nat.eqb y x); simpl;
        destruct (existsb (Nat.eqb y) seen); reflexivity.
Qed.

(** [unique] keeps each element where it first occurs. *)
Lemma unique_first_appearance (l : list nat) : unique l = first_appearance l.
Proof.
  induction l as [|x r IH].
  - reflexivity.
  - change (unique (x :: r)) with (x :: unique_from [x] r).
    simpl. rewrite unique_from_filter, IH. f_equal.
    apply filter_ext. intros y. simpl. rewrite orb_false_r. reflexivity.
Qed.

(** ** The dictionary *)

Lemma dict_set_fresh (d : dict) (k : nat) (v : Snapshot.t) :
  ~ In k (map fst d) -> dict_set d k v = d ++ [(k, v)].
Proof.
  induction d as [|[k' v'] r IH]; simpl; intros H.
  - reflexivity.
  - destruct (Nat.eqb_spec k' k); [tauto |].
    rewrite IH; [reflexivity | tauto].
Qed.

Lemma dict_get_set_same (d : dict) (k : nat) (v : Snapshot.t) :
  dict_get (dict_set d k v) k = Some v.
Proof.
  induction d as [|[k' v'] r IH]; simpl.
  - rewrite Nat.eqb_refl. reflexivity.
  - destruct (Nat.eqb_spec k' k) as [->|Hne]; simpl.
    + rewrite Nat.eqb_refl. reflexivity.
    + destruct (Nat.eqb_spec k' k); [contradiction | assumption].
Qed.

Lemma dict_get_set_other (d : dict) (k k' : nat) (v : Snapshot.t) :
  k <> k' -> dict_get (dict_set d k v) k' = dict_get d k'.
Proof.
  intros Hne. induction d as [|[k0 v0] r IH]; simpl.
  - destruct (Nat.eqb_spec k k'); [contradiction | reflexivity].
  - destruct (Nat.eqb_spec k0 k) as [->|Hk]; simpl.
    + destruct (Nat.eqb_spec k k'); [contradiction | reflexivity].
    + destruct (Nat.eqb_spec k0 k'); [reflexivity | assumption].
Qed.

(** Filling a dictionary from distinct fresh keys appends them in order. *)
Lemma fill_fresh (f : nat -> Snapshot.t) (l : list nat) (d : dict) :
  NoDup l -> (forall k, In k l -> ~ In k (map fst d)) ->
  fold_left (fun s p => dict_set s p (f p)) l d = d ++ map (fun p => (p, f p)) l.
Proof.
  revert d. induction l as [|p r IH]; intros d Hnd Hfresh; simpl.
  - rewrite app_nil_r. reflexivity.
  - inversion Hnd as [|? ? Hp Hr]; subst.
    rewrite dict_set_fresh by (apply Hfresh; left; reflexivity).
    rewrite IH.
    + rewrite <- app_assoc. reflexivity.
    + assumption.
    + intros k Hk. rewrite map_app, in_app_iff. simpl.
      intros [H | [-> | []]]; [apply (Hfresh k); [right |]; assumption | contradiction].
Qed.

(** A key that reads back the value the loop computes for it keeps doing
    so, and a key the loop writes reads back that value, whatever was there
    before. *)
Lemma fill_get_keep (f : nat -> Snapshot.t) (l : list nat) (d : dict) (k : nat) :
  dict_get d k = Some (f k) ->
  dict_get (fold_left (fun s p => dict_set s p (f p)) l d) k = Some (f k).
Proof.
  revert d. induction l as [|p r IH]; intros d H; simpl; [assumption |].
  apply IH. destruct (Nat.eq_dec p k) as [->|Hne].
  - apply dict_get_set_same.
  - rewrite dict_get_set_other; assumption.
Qed.

Lemma fill_get (f : nat -> Snapshot.t) (l : list nat) (d : dict) (k : nat) :
  In k l -> dict_get (fold_left (fun s p => dict_set s p (f p)) l d) k = Some (f k).
Proof.
  revert d. induction l as [|p r IH]; intros d; simpl; [tauto |].
  intros [-> | Hk].
  - apply fill_get_keep, dict_get_set_same.
  - apply IH. assumption.
Qed.

(** ** [range] and slices *)

Lemma range_from_done (fuel start stop step : nat) :
  stop <= start -> range_from fuel start stop step = [].
Proof.
  intros H. destruct fuel as [|f]; simpl; [reflexivity |].
  destruct (Nat.ltb_spec start stop); [lia | reflexivity].
Qed.

Lemma range_from_count (fuel start stop step : nat) :
  0 < step -> stop - start <= fuel ->
  let n := length (range_from fuel start stop step) in
  stop - start <= n * step /\ n * step < stop - start + step.
Proof.
  intros Hstep. revert start. induction fuel as [|f IH]; intros start Hfuel; simpl.
  - lia.
  - destruct (Nat.ltb_spec start stop) as [Hlt | Hge]; simpl; [| lia].
    destruct (le_lt_dec stop (start + step)) as [Hlast | Hmore].
    + rewrite range_from_done by assumption. simpl. lia.
    + specialize (IH (start + step)). simpl in IH.
      destruct IH as [IH1 IH2]; [lia |]. lia.
Qed.

Lemma range_from_multiples (fuel start stop step : nat) :
  range_from fuel start stop step
  = map (fun k => start + step * k) (seq 0 (length (range_from fuel start stop step))).
Proof.
  revert start. induction fuel as [|f IH]; intros start; simpl; [reflexivity |].
  destruct (start <? stop); simpl; [| reflexivity].
  f_equal; [lia |].
  rewrite <- seq_shift, map_map. rewrite IH at 1.
  apply map_ext. intros k. lia.
Qed.

Lemma range_from_below (fuel start stop step i : nat) :
  In i (range_from fuel start stop step) -> i < stop.
Proof.
  revert start. induction fuel as [|f IH]; intros start; simpl; [tauto |].
  destruct (Nat.ltb_spec start stop) as [Hlt | Hge]; simpl; [| tauto].
  intros [<- | H]; [assumption | apply (IH _ H)].
Qed.

Lemma range_from_slices {A} (l : list A) (fuel start step : nat) :
  0 < step -> length l - start <= fuel ->
  concat (map (fun i => slice l i (i + step)) (range_from fuel start (length l) step))
  = skipn start l.
Proof.
  intros Hstep. revert start. induction fuel as [|f IH]; intros start Hfuel; simpl.
  - symmetry. apply skipn_all2. lia.
  - destruct (Nat.ltb_spec start (length l)) as [Hlt | Hge]; simpl.
    + rewrite IH by lia. unfold slice.
      replace (start + step - start) with step by lia.
      rewrite (Nat.add_comm start step), <- skipn_skipn.
      apply firstn_skipn.
    + symmetry. apply skipn_all2. assumption.
Qed.

(** The number of iterations of [for i in range(0, total, step)] is
    [total / step] rounded up. *)
Lemma range_length (total step : nat) :
  0 < step -> length (range 0 total step) = (total + (step - 1)) / step.
Proof.
  intros Hstep. unfold range.
  destruct (range_from_count (total - 0) 0 total step Hstep) as [H1 H2]; [lia |].
  set (n := length (range_from (total - 0) 0 total step)) in *.
  apply Nat.div_unique with (r := total + (step - 1) - step * n); nia.
Qed.

Lemma range_multiples (total step : nat) :
  0 < step ->
  range 0 total step = map (fun k => step * k) (seq 0 ((total + (step - 1)) / step)).
Proof.
  intros Hstep. rewrite <- (range_length total step Hstep).
  unfold range. apply range_from_multiples.
Qed.

Lemma slice_batch {A} (l : list A) (i n : nat) :
  slice l i (i + n) = firstn n (skipn i l).
Proof. unfold slice. f_equal. lia. Qed.

(** ** Running the steps *)

Lemma emit_emit (a b : list event) (w : world) : emit b (emit a w) = emit (a ++ b) w.
Proof. unfold emit. simpl. rewrite <- app_assoc. reflexivity. Qed.

Lemma bind_run {A B} (c : M A) (k : A -> M B) (w w' : world) (a : A) :
  c w = Some (a, w') -> bind c k w = k a w'.
Proof. intros H. unfold bind. rewrite H. reflexivity. Qed.

Lemma print_run (s : string) (w : world) : print s w = Some (tt, emit [Print s] w).
Proof. reflexivity. Qed.

Lemma search_move_run (w : world) :
  search_move stuck_domain w = Some (selected (db w), w).
Proof. unfold search_move. rewrite search_moves_stuck. reflexivity. Qed.

Lemma search_quant_run (p : nat) (w : world) :
  search_quant (quant_domain p) w = Some (internal_quants (db w) p, w).
Proof. unfold search_quant. rewrite search_quants_internal. reflexivity. Qed.

(** A loop whose body only prints, and updates its local variable. *)
Lemma for_acc_run {A S} (e : erp) (f : A -> S -> S) (g : A -> list event)
      (body : A -> S -> M S) :
  (forall x s w, db w = e -> body x s w = Some (f x s, emit (g x) w)) ->
  forall l s w, db w = e ->
    for_acc l s body w = Some (fold_left (fun s' x => f x s') l s, emit (flat_map g l) w).
Proof.
  intros Hbody. induction l as [|x r IH]; intros s w Hw; simpl.
  - unfold ret, emit. rewrite app_nil_r. destruct w; reflexivity.
  - rewrite (bind_run _ _ _ _ _ (Hbody x s w Hw)).
    rewrite IH by exact Hw. rewrite emit_emit. reflexivity.
Qed.

Lemma for_each_run {A} (e : erp) (g : A -> list event) (body : A -> M unit) :
  (forall x w, db w = e -> body x w = Some (tt, emit (g x) w)) ->
  forall l w, db w = e -> for_each l body w = Some (tt, emit (flat_map g l) w).
Proof.
  intros Hbody. induction l as [|x r IH]; intros w Hw; simpl.
  - unfold ret, emit. rewrite app_nil_r. destruct w; reflexivity.
  - rewrite (bind_run _ _ _ _ _ (Hbody x w Hw)).
    rewrite IH by exact Hw. rewrite emit_emit. reflexivity.
Qed.

Lemma flat_map_single {A B} (f : A -> B) (l : list A) :
  flat_map (fun x => [f x]) l = map f l.
Proof. induction l as [|x r IH]; simpl; [| rewrite IH]; reflexivity. Qed.

Lemma step1_run (w : world) :
  step1 w = Some ((selected (db w), affected_products (db w)),
                  emit (found_lines (db w)) w).
Proof.
  unfold step1. rewrite (bind_run _ _ _ _ _ (search_move_run w)).
  unfold bind. rewrite !print_run, emit_emit. reflexivity.
Qed.

Lemma step2_run (ms : list Move.t) (products : list nat) (w : world) :
  step2 ms products w
  = Some (before_state_of (db w) ms products,
          emit (before_table (db w) ms products) w).
Proof.
  unfold step2.
  set (body := fun (prod : nat) (before_state : dict) => bind _ _).
  assert (Hbody : forall x s w0, db w0 = db w ->
            body x s w0 = Some (dict_set s x (snapshot_of (db w) ms x),
                                emit [Print (before_row (db w) ms x)] w0)).
  { intros x s w0 Hw0. unfold body.
    rewrite (bind_run _ _ _ _ _ (search_quant_run x w0)).
    unfold bind, read_default_code. rewrite print_run, Hw0. reflexivity. }
  pose proof (for_acc_run (db w) _ _ body Hbody) as Hloop.
  unfold bind at 1. rewrite print_run.
  unfold bind at 1. rewrite print_run.
  unfold bind at 1. rewrite print_run.
  unfold bind at 1. rewrite print_run.
  unfold bind at 1. rewrite print_run.
  rewrite !emit_emit.
  match goal with |- bind _ _ ?w1 = _ =>
    rewrite (bind_run _ _ _ _ _ (Hloop (firstn 20 products) [] w1 eq_refl))
  end.
  unfold bind. rewrite !print_run, !emit_emit, flat_map_single. unfold ret.
  reflexivity.
Qed.

Lemma step4_run (before_state : dict) (w : world) :
  step4 before_state w = Some (tt, emit (after_table (db w) before_state) w).
Proof.
  unfold step4.
  set (body := fun item : nat * Snapshot.t => _).
  assert (Hbody : forall x w0, db w0 = db w ->
            body x w0 = Some (tt, emit [Print (after_row (db w) x)] w0)).
  { intros [prod_id before] w0 Hw0. unfold body.
    rewrite (bind_run _ _ _ _ _ (search_quant_run prod_id w0)).
    rewrite print_run, Hw0. reflexivity. }
  pose proof (for_each_run (db w) _ body Hbody) as Hloop.
  unfold bind at 1. rewrite print_run.
  unfold bind at 1. rewrite print_run.
  unfold bind at 1. rewrite print_run.
  unfold bind at 1. rewrite print_run.
  unfold bind at 1. rewrite print_run.
  rewrite !emit_emit.
  match goal with |- bind _ _ ?w1 = _ =>
    rewrite (bind_run _ _ _ _ _ (Hloop before_state w1 eq_refl))
  end.
  rewrite print_run, !emit_emit, flat_map_single.
  reflexivity.
Qed.

Section Runs.

Variable do_unreserve : list nat -> erp -> erp.

(** The batch loop, started at any point of the range. *)
Lemma batch_loop_run (pickings : list nat) (l : list nat) (w : world) :
  for_each l (fun i =>
    let batch := slice pickings i (i + batch_size) in
    unreserve do_unreserve batch ;;
    print (progress (length pickings) i)) w
  = Some (tt,
          mkWorld (fold_left (fun e' i =>
                     do_unreserve (slice pickings i (i + batch_size)) e') l (db w))
                  (durable w)
                  (log w ++ flat_map (fun i =>
                     [ DoUnreserve (slice pickings i (i + batch_size));
                       Print (progress (length pickings) i) ]) l)).
Proof.
  revert w. induction l as [|i r IH]; intros w; simpl.
  - unfold ret. rewrite app_nil_r. destruct w; reflexivity.
  - unfold bind at 1. unfold bind at 1. unfold unreserve at 1.
    rewrite print_run. rewrite IH. unfold emit. simpl.
    rewrite <- !app_assoc. reflexivity.
Qed.

Lemma step3_true_run (ms : list Move.t) (before_state : dict) (w : world) :
  let pickings := mapped_picking_id ms in
  let e' := released do_unreserve pickings (db w) in
  step3 do_unreserve true ms before_state w
  = Some (tt, mkWorld e' e'
                (log w ++ unreserving_lines pickings ++ release_log pickings
                   ++ [Commit; complete_line] ++ after_table e' before_state)).
Proof.
  intros pickings e'. unfold step3.
  unfold bind at 1. rewrite print_run.
  unfold bind at 1. rewrite print_run.
  unfold bind at 1. fold pickings. unfold progress in *.
  pose proof (batch_loop_run pickings (range 0 (length pickings) batch_size)) as Hloop.
  unfold progress in Hloop. rewrite Hloop. clear Hloop.
  unfold bind at 1. unfold commit at 1.
  unfold bind at 1. rewrite print_run.
  rewrite step4_run. unfold emit. simpl.
  rewrite <- !app_assoc. reflexivity.
Qed.

Lemma step3_false_run (ms : list Move.t) (before_state : dict) (w : world) :
  step3 do_unreserve false ms before_state w = Some (tt, emit skipped_lines w).
Proof.
  unfold step3. unfold bind. rewrite !print_run, emit_emit. reflexivity.
Qed.

Lemma script_run (flag : bool) (w : world) :
  script do_unreserve flag w
  = step3 do_unreserve flag (selected (db w))
          (before_state_of (db w) (selected (db w)) (affected_products (db w)))
          (emit (found_lines (db w)
                   ++ before_table (db w) (selected (db w)) (affected_products (db w))) w).
Proof.
  unfold script.
  rewrite (bind_run _ _ _ _ _ (step1_run w)).
  rewrite (bind_run _ _ _ _ _ (step2_run _ _ _)).
  rewrite emit_emit. reflexivity.
Qed.

(** A run with the flag set. *)
Lemma run_true (e : erp) :
  let e' := released do_unreserve (stuck_pickings e) e in
  run do_unreserve true e
  = Some (mkWorld e' e'
            (found_lines e
               ++ before_table e (selected e) (affected_products e)
               ++ unreserving_lines (stuck_pickings e)
               ++ release_log (stuck_pickings e)
               ++ [Commit; complete_line]
               ++ after_table e' (before_state_of e (selected e) (affected_products e)))).
Proof.
  intros e'. unfold run. rewrite script_run.
  pose proof (step3_true_run (selected e)
                (before_state_of e (selected e) (affected_products e))
                (emit (found_lines e
                         ++ before_table e (selected e) (affected_products e))
                      (session e))) as H.
  simpl in H. simpl. rewrite H. rewrite <- !app_assoc. reflexivity.
Qed.

(** A run with the flag cleared. *)
Lemma run_false (e : erp) :
  run do_unreserve false e
  = Some (mkWorld e e
            (found_lines e
               ++ before_table e (selected e) (affected_products e)
               ++ skipped_lines)).
Proof.
  unfold run. rewrite script_run, step3_false_run.
  unfold emit. simpl. rewrite <- !app_assoc. reflexivity.
Qed.

End Runs.

(** ** Reading a log *)

Lemma release_calls_app (a b : list event) :
  release_calls (a ++ b) = release_calls a ++ release_calls b.
Proof.
  induction a as [|[s | ps |] r IH]; simpl; rewrite ?IH; reflexivity.
Qed.

Lemma commits_app (a b : list event) : commits (a ++ b) = commits a + commits b.
Proof.
  induction a as [|[s | ps |] r IH]; simpl; rewrite ?IH; reflexivity.
Qed.

Lemma prints_release_calls {A} (f : A -> string) (l : list A) :
  release_calls (map (fun x => Print (f x)) l) = [].
Proof. induction l; simpl; auto. Qed.

Lemma prints_commits {A} (f : A -> string) (l : list A) :
  commits (map (fun x => Print (f x)) l) = 0.
Proof. induction l; simpl; auto. Qed.

Lemma before_table_quiet (e : erp) (ms : list Move.t) (ps : list nat) :
  release_calls (before_table e ms ps) = [] /\ commits (before_table e ms ps) = 0.
Proof.
  unfold before_table.
  rewrite !release_calls_app, !commits_app, prints_release_calls, prints_commits.
  split; reflexivity.
Qed.

Lemma after_table_quiet (e : erp) (d : dict) :
  release_calls (after_table e d) = [] /\ commits (after_table e d) = 0.
Proof.
  unfold after_table.
  rewrite !release_calls_app, !commits_app, prints_release_calls, prints_commits.
  split; reflexivity.
Qed.

Lemma release_log_calls (pickings : list nat) :
  release_calls (release_log pickings)
  = map (fun i => slice pickings i (i + batch_size))
        (range 0 (length pickings) batch_size).
Proof.
  unfold release_log. induction (range 0 (length pickings) batch_size) as [|i r IH];
    simpl; [| rewrite IH]; reflexivity.
Qed.

Lemma release_log_commits (pickings : list nat) : commits (release_log pickings) = 0.
Proof.
  unfold release_log. induction (range 0 (length pickings) batch_size) as [|i r IH];
    simpl; [| rewrite IH]; reflexivity.
Qed.

(** ** The batches *)

Lemma batches_multiples (pickings : list nat) :
  map (fun i => slice pickings i (i + batch_size)) (range 0 (length pickings) batch_size)
  = map (batch_at 100 pickings) (seq 0 ((length pickings + 99) / 100)).
Proof.
  unfold batch_size. rewrite range_multiples by lia. rewrite map_map.
  apply map_ext. intros k. apply slice_batch.
Qed.

Lemma batches_cover (pickings : list nat) :
  concat (map (fun i => slice pickings i (i + batch_size))
              (range 0 (length pickings) batch_size)) = pickings.
Proof.
  unfold range, batch_size.
  rewrite (range_from_slices pickings (length pickings - 0) 0 100) by lia.
  reflexivity.
Qed.

Lemma batches_sizes (pickings : list nat) :
  Forall (fun b => 1 <= length b <= 100)
         (map (fun i => slice pickings i (i + batch_size))
              (range 0 (length pickings) batch_size)).
Proof.
  apply Forall_map, Forall_forall. intros i Hi.
  apply range_from_below in Hi.
  rewrite slice_batch, length_firstn, length_skipn. unfold batch_size. lia.
Qed.

(** ** Strings *)

Lemma length_append (a b : string) :
  String.length (a ++ b) = String.length a + String.length b.
Proof. induction a as [|c a IH]; simpl; [| rewrite IH]; reflexivity. Qed.

Lemma len_le_length (s : string) : len s <= String.length s.
Proof.
  induction s as [|c s IH]; simpl; [lia |].
  destruct (is_continuation c); lia.
Qed.

Lemma length_spaces (n : nat) : String.length (repeat_str " " n) = n.
Proof. induction n as [|n IH]; simpl; [| rewrite IH]; reflexivity. Qed.

Lemma length_ljust (w : nat) (s : string) : w <= String.length (ljust w s).
Proof.
  unfold ljust. rewrite length_append, length_spaces.
  pose proof (len_le_length s). lia.
Qed.

Lemma length_rjust (w : nat) (s : string) : w <= String.length (rjust w s).
Proof.
  unfold rjust. rewrite length_append, length_spaces.
  pose proof (len_le_length s). lia.
Qed.

(** A row of a table is at least 82 bytes long. *)
Lemma length_row (c1 c2 c3 c4 c5 : string) : 82 <= String.length (row c1 c2 c3 c4 c5).
Proof.
  unfold row. rewrite !length_append. simpl.
  pose proof (length_ljust 30 c1). pose proof (length_rjust 12 c2).
  pose proof (length_rjust 12 c3). pose proof (length_rjust 12 c4).
  pose proof (length_rjust 12 c5). lia.
Qed.

Lemma short_line_not_in_before_table (s : string) (e : erp) (ms : list Move.t)
      (ps : list nat) :
  String.length s < 82 ->
  ~ In (Print s) before_header -> ~ In (Print s) before_footer ->
  ~ In (Print s) (before_table e ms ps).
Proof.
  intros Hlen Hh Hf. unfold before_table. rewrite !in_app_iff, in_map_iff.
  intros [H | [[p [Hp _]] | H]]; [tauto | | tauto].
  injection Hp as Hp. unfold before_row in Hp.
  pose proof (length_row (or_str (default_code e p) "N/A")
                (format_0f false (on_hand_of e p)) (format_0f false (reserved_of e p))
                (format_0f false (available_of e p)) (str_nat (stuck_count ms p))) as Hr.
  rewrite Hp in Hr. lia.
Qed.

Lemma NoDup_firstn {A} (n : nat) (l : list A) : NoDup l -> NoDup (firstn n l).
Proof.
  intros H. rewrite <- (firstn_skipn n l) in H.
  apply NoDup_app_remove_r in H. exact H.
Qed.

Lemma before_state_items (e : erp) (ms : list Move.t) (products : list nat) :
  NoDup products ->
  before_state_of e ms products
  = map (fun p => (p, snapshot_of e ms p)) (firstn 20 products).
Proof.
  intros H. unfold before_state_of.
  rewrite fill_fresh; [reflexivity | apply NoDup_firstn, H | intros k _ []].
Qed.

(** * The claims *)

(** ** Selector *)

Lemma qualifying_iff (s : move_state) :
  qualifying s = true
  <-> In (move_state_name s) ["assigned"; "confirmed"; "waiting"; "partially_available"].
Proof.
  destruct s; simpl; split; intros H; try reflexivity; try discriminate;
    try tauto; repeat (destruct H as [H | H]; try discriminate); contradiction.
Qed.

Lemma is_stuck_iff (m : Move.t) :
  is_stuck m = true
  <-> In (move_state_name (Move.state m))
         ["assigned"; "confirmed"; "waiting"; "partially_available"]
      /\ datetime_ltb (Move.date m) (mkDatetime 2024 1 1 0 0 0) = true
      /\ Move.sale_line_id m <> None.
Proof.
  unfold is_stuck, has_sale_line. rewrite !andb_true_iff, qualifying_iff.
  change cutoff with (mkDatetime 2024 1 1 0 0 0).
  destruct (Move.sale_line_id m); intuition congruence.
Qed.

(** C1.  On every database the search of lines 11-15 succeeds, changes
    nothing and prints nothing, and returns exactly the moves of the table
    whose status is one of "assigned", "confirmed", "waiting",
    "partially_available", whose date is strictly before the cutoff
    (midnight of 2024-01-01) and whose sales order line is set: each such
    move once, in table order, and no other move.  These are the moves
    STEP 1 hands to the rest of the script. *)
Theorem selector_exact (e : erp) :
  exists stuck,
    search_move stuck_domain (session e) = Some (stuck, session e)
    /\ (exists products w1,
          step1 (session e) = Some ((stuck, products), w1)
          /\ db w1 = e /\ durable w1 = e)
    /\ stuck = filter is_stuck (moves e)
    /\ forall m, In m stuck
                 <-> In m (moves e)
                     /\ In (move_state_name (Move.state m))
                           ["assigned"; "confirmed"; "waiting"; "partially_available"]
                     /\ datetime_ltb (Move.date m) (mkDatetime 2024 1 1 0 0 0) = true
                     /\ Move.sale_line_id m <> None.
Proof.
  exists (selected e). split; [apply search_move_run |].
  split.
  { do 2 eexists. split; [apply step1_run |]. split; reflexivity. }
  split; [reflexivity |].
  intros m. unfold selected. rewrite filter_In, is_stuck_iff. reflexivity.
Qed.

(** ** Batch Release Executor *)

(** C2.  With the flag set, on every database and for every release
    operation, the run succeeds; with N the number of pickings of the
    selected moves, the release operation is called exactly ceil(N/100)
    times, the k-th call on the pickings 100k .. 100k+99 (so the calls are
    contiguous, cover the pickings in order, and each takes between 1 and
    100 of them); there is exactly one commit, it follows every release
    call, and it makes durable the database the calls produced. *)
Theorem batch_release_executor (do_unreserve : list nat -> erp -> erp) (e : erp) :
  exists w stuck,
    run do_unreserve true e = Some w
    /\ search_moves e stuck_domain = Some stuck
    /\ release_calls (log w)
       = map (batch_at 100 (mapped_picking_id stuck))
             (seq 0 ((length (mapped_picking_id stuck) + 99) / 100))
    /\ length (release_calls (log w)) = (length (mapped_picking_id stuck) + 99) / 100
    /\ length (mapped_picking_id stuck) <= 100 * length (release_calls (log w))
       < length (mapped_picking_id stuck) + 100
    /\ Forall (fun batch => 1 <= length batch <= 100) (release_calls (log w))
    /\ concat (release_calls (log w)) = mapped_picking_id stuck
    /\ commits (log w) = 1
    /\ (exists before after,
          log w = before ++ Commit :: after
          /\ release_calls before = release_calls (log w)
          /\ release_calls after = [])
    /\ durable w = db w
    /\ db w = fold_left (fun e' batch => do_unreserve batch e') (release_calls (log w)) e.
Proof.
  eexists. exists (selected e). split; [apply run_true |].
  split; [apply search_moves_stuck |].
  fold (stuck_pickings e). cbn [log db durable].
  set (pk := stuck_pickings e).
  destruct (before_table_quiet e (selected e) (affected_products e)) as [Hb1 Hb2].
  destruct (after_table_quiet (released do_unreserve pk e)
              (before_state_of e (selected e) (affected_products e))) as [Ha1 Ha2].
  assert (Hcalls : release_calls
                     (found_lines e ++ before_table e (selected e) (affected_products e)
                        ++ unreserving_lines pk ++ release_log pk
                        ++ [Commit; complete_line]
                        ++ after_table (released do_unreserve pk e)
                             (before_state_of e (selected e) (affected_products e)))
                   = map (fun i => slice pk i (i + batch_size))
                         (range 0 (length pk) batch_size)).
  { rewrite !release_calls_app, Hb1, Ha1, release_log_calls. simpl. apply app_nil_r. }
  rewrite Hcalls.
  assert (Hlen : length (map (fun i => slice pk i (i + batch_size))
                             (range 0 (length pk) batch_size))
                 = (length pk + 99) / 100).
  { rewrite batches_multiples, length_map, length_seq. reflexivity. }
  split; [apply batches_multiples |].
  split; [exact Hlen |].
  split.
  { rewrite Hlen. pose proof (Nat.div_mod_eq (length pk + 99) 100) as Hd.
    pose proof (Nat.mod_upper_bound (length pk + 99) 100). lia. }
  split; [apply batches_sizes |].
  split; [apply batches_cover |].
  split.
  { rewrite !commits_app, Hb2, Ha2, release_log_commits. reflexivity. }
  split.
  { exists (found_lines e ++ before_table e (selected e) (affected_products e)
              ++ unreserving_lines pk ++ release_log pk),
           (complete_line :: after_table (released do_unreserve pk e)
                               (before_state_of e (selected e) (affected_products e))).
    split; [rewrite <- !app_assoc; reflexivity |].
    split.
    - rewrite !release_calls_app, Hb1, release_log_calls. reflexivity.
    - simpl. exact Ha1. }
  split; [reflexivity |].
  unfold released. generalize (range 0 (length pk) batch_size). intros l.
  generalize e. induction l as [|i r IH]; intros e0; simpl; [reflexivity |].
  apply IH.
Qed.

(** ** The review gate *)

(** Whatever the database, the script as shipped commits on its first run,
    and calls the release operation as soon as one selected move has a
    picking. *)
Lemma shipped_run_commits (do_unreserve : list nat -> erp -> erp) (e : erp) :
  exists w,
    run do_unreserve DO_UNRESERVE e = Some w
    /\ commits (log w) = 1
    /\ length (release_calls (log w)) = (length (stuck_pickings e) + 99) / 100.
Proof.
  eexists. split; [apply run_true |]. cbn [log].
  destruct (before_table_quiet e (selected e) (affected_products e)) as [Hb1 Hb2].
  destruct (after_table_quiet (released do_unreserve (stuck_pickings e) e)
              (before_state_of e (selected e) (affected_products e))) as [Ha1 Ha2].
  split.
  - rewrite !commits_app, Hb2, Ha2, release_log_commits. reflexivity.
  - rewrite !release_calls_app, Hb1, Ha1, release_log_calls. simpl.
    rewrite app_nil_r, batches_multiples, length_map, length_seq. reflexivity.
Qed.

(** C6.  With the flag cleared, on every database and for every release
    operation, the run succeeds, calls the release operation never and
    commits never, leaves the database and the durable database as they
    were, and prints the Before report followed by the two lines of the
    [else] branch and nothing else: neither the title nor the closing line
    of the After report appears. *)
Theorem dry_run_changes_nothing (do_unreserve : list nat -> erp -> erp) (e : erp) :
  exists w,
    run do_unreserve false e = Some w
    /\ release_calls (log w) = []
    /\ commits (log w) = 0
    /\ db w = e
    /\ durable w = e
    /\ (exists report stuck products before_state w1 w2,
          step1 (session e) = Some ((stuck, products), w1)
          /\ step2 stuck products w1 = Some (before_state, w2)
          /\ log w2 = report
          /\ log w = report
                     ++ [ Print (nl ++ "DO_UNRESERVE is False - no changes made.");
                          Print "To execute: change DO_UNRESERVE = True and paste script again." ])
    /\ ~ In (Print "AFTER UNRESERVE:") (log w)
    /\ ~ In (Print (nl ++ "✓ Done! Available inventory increased by the delta shown."))
            (log w).
Proof.
  eexists. split; [apply run_false |]. cbn [log db durable].
  destruct (before_table_quiet e (selected e) (affected_products e)) as [Hb1 Hb2].
  split; [rewrite !release_calls_app, Hb1; reflexivity |].
  split; [rewrite !commits_app, Hb2; reflexivity |].
  split; [reflexivity |]. split; [reflexivity |].
  split.
  { do 6 eexists. split; [apply step1_run |].
    split; [apply step2_run |].
    split; [reflexivity |].
    cbn [log emit session db]. rewrite <- app_assoc. reflexivity. }
  split.
  - rewrite !in_app_iff. intros [H | [H | H]].
    + simpl in H. destruct H as [H | [H | []]]; discriminate H.
    + revert H. apply short_line_not_in_before_table.
      * simpl. lia.
      * simpl. intros H. repeat (destruct H as [H | H]; [discriminate H |]). exact H.
      * simpl. intros H. repeat (destruct H as [H | H]; [discriminate H |]). exact H.
    + simpl in H. repeat (destruct H as [H | H]; [discriminate H |]). exact H.
  - rewrite !in_app_iff. intros [H | [H | H]].
    + simpl in H. destruct H as [H | [H | []]]; discriminate H.
    + revert H. apply short_line_not_in_before_table.
      * simpl. lia.
      * simpl. intros H. repeat (destruct H as [H | H]; [discriminate H |]). exact H.
      * simpl. intros H. repeat (destruct H as [H | H]; [discriminate H |]). exact H.
    + simpl in H. repeat (destruct H as [H | H]; [discriminate H |]). exact H.
Qed.

(** ** Snapshot Reporter *)

Lemma before_state_get (e : erp) (ms : list Move.t) (products : list nat) (p : nat) :
  In p (firstn 20 products) ->
  dict_get (before_state_of e ms products) p = Some (snapshot_of e ms p).
Proof. intros H. unfold before_state_of. apply fill_get, H. Qed.

Lemma before_row_printed (e : erp) (ms : list Move.t) (products : list nat) (p : nat) :
  In p (firstn 20 products) -> In (Print (before_row e ms p)) (before_table e ms products).
Proof.
  intros H. unfold before_table. rewrite !in_app_iff, in_map_iff.
  right. left. exists p. split; [reflexivity | exact H].
Qed.

(** C4.  STEP 2 never fails and changes no database.  For a product [p] it
    reports (one of the first 20 given to it), the entry recorded in
    [before_state] has: on_hand, the sum of [quantity] over the quants of
    [p] in internal locations; reserved, the sum of their
    [reserved_quantity]; available, on_hand minus reserved; stuck_moves, the
    number of the selected moves whose product is [p]; and these are the
    figures of the row printed for [p].  When those quants are
    (10, 3) and (5, 5), the entry has on_hand 15, reserved 8 and
    available 7. *)
Theorem snapshot_reporter (ms : list Move.t) (products : list nat) (w : world) (p : nat) :
  In p (firstn 20 products) ->
  exists before_state w' s,
    step2 ms products w = Some (before_state, w')
    /\ db w' = db w /\ durable w' = durable w
    /\ dict_get before_state p = Some s
    /\ Snapshot.on_hand s
       = Py.sum python (map Quant.quantity
                     (filter (fun q => (Quant.product_id q =? p)
                                       && is_internal (Quant.location_usage q))
                             (quants (db w))))
    /\ Snapshot.reserved s
       = Py.sum python (map Quant.reserved_quantity
                     (filter (fun q => (Quant.product_id q =? p)
                                       && is_internal (Quant.location_usage q))
                             (quants (db w))))
    /\ Snapshot.available s = (Snapshot.on_hand s - Snapshot.reserved s)%float
    /\ Snapshot.stuck_moves s
       = length (filter (fun m => Move.product_id m =? p) ms)
    /\ In (Print (row (or_str (default_code (db w) p) "N/A")
                      (format_0f false (Snapshot.on_hand s))
                      (format_0f false (Snapshot.reserved s))
                      (format_0f false (Snapshot.available s))
                      (str_nat (Snapshot.stuck_moves s))))
          (log w')
    /\ (map (fun q => (Quant.quantity q, Quant.reserved_quantity q))
            (filter (fun q => (Quant.product_id q =? p)
                              && is_internal (Quant.location_usage q))
                    (quants (db w)))
        = [(10, 3); (5, 5)]%float ->
        Snapshot.on_hand s = 15%float
        /\ Snapshot.reserved s = 8%float
        /\ Snapshot.available s = 7%float).
Proof.
  intros Hp. do 3 eexists.
  split; [apply step2_run |].
  split; [reflexivity |]. split; [reflexivity |].
  split; [apply before_state_get, Hp |].
  cbn [Snapshot.on_hand Snapshot.reserved Snapshot.available Snapshot.stuck_moves
       snapshot_of].
  split; [reflexivity |]. split; [reflexivity |]. split; [reflexivity |].
  split; [reflexivity |].
  split.
  { cbn [log emit]. apply in_or_app. right.
    apply (before_row_printed (db w) ms products p Hp). }
  intros Hq. unfold available_of, on_hand_of, reserved_of, internal_quants.
  assert (Hqty : map Quant.quantity
                     (filter (fun q => (Quant.product_id q =? p)
                                       && is_internal (Quant.location_usage q))
                             (quants (db w))) = [10; 5]%float).
  { rewrite <- (map_map (fun q => (Quant.quantity q, Quant.reserved_quantity q)) fst).
    rewrite Hq. reflexivity. }
  assert (Hres : map Quant.reserved_quantity
                     (filter (fun q => (Quant.product_id q =? p)
                                       && is_internal (Quant.location_usage q))
                             (quants (db w))) = [3; 5]%float).
  { rewrite <- (map_map (fun q => (Quant.quantity q, Quant.reserved_quantity q)) snd).
    rewrite Hq. reflexivity. }
  rewrite Hqty, Hres. destruct (sum_small python) as [-> ->].
  repeat split; reflexivity.
Qed.

(** ** Delta Reporter *)

Lemma after_row_printed (e : erp) (before_state : dict) (item : nat * Snapshot.t) :
  In item before_state -> In (Print (after_row e item)) (after_table e before_state).
Proof.
  intros H. unfold after_table. rewrite !in_app_iff, in_map_iff.
  right. left. exists item. split; [reflexivity | exact H].
Qed.

(** The [+.0f] presentation always starts with a sign. *)
Lemma format_signed (x : float) :
  exists rest, format_0f true x = String "+" rest \/ format_0f true x = String "-" rest.
Proof.
  unfold format_0f.
  destruct (Prim2SF x) as [[|] | [|] | | [|] m e]; simpl; eexists; auto.
Qed.

(** C5.  STEP 4 never fails and changes no database.  After the header it
    prints one row per item of [before_state], in order, then the closing
    line.  The row of an item [(p, b)] shows on_hand, reserved and
    available of [p] computed as STEP 2 computes them (on the same database
    STEP 2 records exactly these three numbers for [p]), and in its last
    column the difference of that available and the recorded available,
    printed with its sign.  When the recorded available is 7 and the new
    one is 12 the last column is "+5", right-aligned in 12 characters. *)
Theorem delta_reporter (before_state : dict) (w : world) (p : nat) (b : Snapshot.t) :
  In (p, b) before_state ->
  exists w' on_hand reserved available delta,
    step4 before_state w = Some (tt, w')
    /\ db w' = db w /\ durable w' = durable w
    /\ log w' = log w ++ after_header
                  ++ map (fun item => Print (after_row (db w) item)) before_state
                  ++ after_footer
    /\ on_hand
       = Py.sum python (map Quant.quantity
                     (filter (fun q => (Quant.product_id q =? p)
                                       && is_internal (Quant.location_usage q))
                             (quants (db w))))
    /\ reserved
       = Py.sum python (map Quant.reserved_quantity
                     (filter (fun q => (Quant.product_id q =? p)
                                       && is_internal (Quant.location_usage q))
                             (quants (db w))))
    /\ available = (on_hand - reserved)%float
    /\ delta = (available - Snapshot.available b)%float
    /\ after_row (db w) (p, b)
       = row (or_str (Snapshot.sku b) "N/A") (format_0f false on_hand)
             (format_0f false reserved) (format_0f false available)
             (format_0f true delta)
    /\ (exists rest, format_0f true delta = String "+" rest
                     \/ format_0f true delta = String "-" rest)
    /\ (forall ms products, In p (firstn 20 products) ->
          exists d w2 s,
            step2 ms products w = Some (d, w2)
            /\ dict_get d p = Some s
            /\ Snapshot.on_hand s = on_hand
            /\ Snapshot.reserved s = reserved
            /\ Snapshot.available s = available)
    /\ (Snapshot.available b = 7%float -> available = 12%float ->
          format_0f true delta = "+5"
          /\ rjust 12 (format_0f true delta) = "          +5"
          /\ In (Print (row (or_str (Snapshot.sku b) "N/A") (format_0f false on_hand)
                            (format_0f false reserved) "12" "+5"))
                (log w')).
Proof.
  intros Hin.
  exists (emit (after_table (db w) before_state) w),
         (on_hand_of (db w) p), (reserved_of (db w) p), (available_of (db w) p),
         (available_of (db w) p - Snapshot.available b)%float.
  split; [apply step4_run |].
  split; [reflexivity |]. split; [reflexivity |]. split; [reflexivity |].
  split; [reflexivity |]. split; [reflexivity |]. split; [reflexivity |].
  split; [reflexivity |]. split; [reflexivity |].
  split; [apply format_signed |].
  split.
  { intros ms products Hp. do 3 eexists.
    split; [apply step2_run |].
    split; [apply before_state_get, Hp |].
    repeat split; reflexivity. }
  intros H7 H12.
  assert (Hd : format_0f true (available_of (db w) p - Snapshot.available b)%float = "+5").
  { rewrite H7, H12. reflexivity. }
  split; [exact Hd |].
  split; [rewrite Hd; reflexivity |].
  cbn [log emit]. apply in_or_app. right.
  pose proof (after_row_printed (db w) before_state (p, b) Hin) as Hrow.
  unfold after_row in Hrow. cbn [fst snd] in Hrow. rewrite Hd in Hrow.
  rewrite H12 in Hrow at 1. exact Hrow.
Qed.

(** ** The cap of the Before table *)

(** C7.  On every database, STEP 1 and STEP 2 succeed; the products are the
    products of the selected moves in order of first appearance, each once;
    the Before table has one row for each of the first 20 of them, in that
    order, and [before_state] has exactly these products as keys, in that
    order: never more than 20, however many products are affected. *)
Theorem snapshot_cap (e : erp) :
  exists stuck products w1 before_state w2,
    step1 (session e) = Some ((stuck, products), w1)
    /\ step2 stuck products w1 = Some (before_state, w2)
    /\ search_moves e stuck_domain = Some stuck
    /\ products = first_appearance (map Move.product_id stuck)
    /\ log w2 = log w1 ++ before_header
                  ++ map (fun p => Print (before_row e stuck p)) (firstn 20 products)
                  ++ before_footer
    /\ map fst before_state = firstn 20 products
    /\ length (firstn 20 products) <= 20
    /\ length before_state <= 20.
Proof.
  do 5 eexists.
  split; [apply step1_run |].
  split; [apply step2_run |].
  cbn [db session emit log].
  split; [apply search_moves_stuck |].
  split; [apply unique_first_appearance |].
  split; [reflexivity |].
  assert (Hitems : before_state_of e (selected e) (affected_products e)
                   = map (fun p => (p, snapshot_of e (selected e) p))
                         (firstn 20 (affected_products e))).
  { apply before_state_items, unique_NoDup. }
  rewrite Hitems, map_map, map_id, length_map.
  split; [reflexivity |].
  split; apply firstn_le_length.
Qed.

(** ** Products without quants *)

(** C8.  If the search for the quants of [p] in internal locations finds
    none, STEP 2 and STEP 4 still succeed.  When STEP 2 reports [p], the
    entry it records has on_hand 0, reserved 0 and available 0, and the row
    it prints shows 0 in the three columns; when [before_state] has an item
    [(p, b)], the row STEP 4 prints for it shows 0 in the three columns and
    the difference of 0 and the recorded available in the last. *)
Theorem no_quants_is_zero (ms : list Move.t) (products : list nat)
        (before_state : dict) (w : world) (p : nat) (b : Snapshot.t) :
  search_quants (db w) (quant_domain p) = Some [] ->
  In p (firstn 20 products) ->
  In (p, b) before_state ->
  (exists d w' s,
     step2 ms products w = Some (d, w')
     /\ dict_get d p = Some s
     /\ Snapshot.on_hand s = 0%float
     /\ Snapshot.reserved s = 0%float
     /\ Snapshot.available s = 0%float
     /\ In (Print (row (or_str (default_code (db w) p) "N/A") "0" "0" "0"
                       (str_nat (length (filter (fun m => Move.product_id m =? p) ms)))))
           (log w'))
  /\ (exists w',
        step4 before_state w = Some (tt, w')
        /\ In (Print (row (or_str (Snapshot.sku b) "N/A") "0" "0" "0"
                          (format_0f true (0 - Snapshot.available b)%float)))
              (log w')).
Proof.
  intros Hnone Hp Hb.
  rewrite search_quants_internal in Hnone. injection Hnone as Hnone.
  split.
  - do 3 eexists.
    split; [apply step2_run |].
    split; [apply before_state_get, Hp |].
    cbn [Snapshot.on_hand Snapshot.reserved Snapshot.available snapshot_of].
    unfold available_of, on_hand_of, reserved_of. rewrite Hnone.
    cbn [map]. rewrite !sum_empty.
    split; [reflexivity |]. split; [reflexivity |]. split; [reflexivity |].
    cbn [log emit]. apply in_or_app. right.
    pose proof (before_row_printed (db w) ms products p Hp) as Hrow.
    unfold before_row, available_of, on_hand_of, reserved_of in Hrow.
    rewrite Hnone in Hrow. cbn [map] in Hrow. rewrite !sum_empty in Hrow.
    exact Hrow.
  - eexists. split; [apply step4_run |].
    cbn [log emit]. apply in_or_app. right.
    pose proof (after_row_printed (db w) before_state (p, b) Hb) as Hrow.
    unfold after_row, available_of, on_hand_of, reserved_of in Hrow.
    cbn [fst snd] in Hrow. rewrite Hnone in Hrow.
    cbn [map] in Hrow. rewrite !sum_empty in Hrow. exact Hrow.
Qed.

(** ** The After report *)

(** C9.  With the flag set, on every database and for every release
    operation, the three steps succeed in turn and make up the run.  The
    keys of [before_state] are the reported products, each once, in the
    order they were recorded.  After the line that closes the release, the
    run prints the After header, then exactly one row per item of
    [before_state], in the order of the items, computed on the database
    after the release, then the closing line, and nothing more.  The row of
    a product that has no quant left in internal locations shows 0 in the
    three quantity columns. *)
Theorem after_report_rows (do_unreserve : list nat -> erp -> erp) (e : erp) :
  exists stuck products w1 before_state w2 w3,
    step1 (session e) = Some ((stuck, products), w1)
    /\ step2 stuck products w1 = Some (before_state, w2)
    /\ step3 do_unreserve true stuck before_state w2 = Some (tt, w3)
    /\ run do_unreserve true e = Some w3
    /\ map fst before_state = firstn 20 products
    /\ NoDup (map fst before_state)
    /\ log w3
       = log w2
         ++ [ Print (nl ++ "Unreserving...");
              Print ("Processing " ++ str_nat (length (mapped_picking_id stuck))
                                   ++ " pickings...") ]
         ++ release_log (mapped_picking_id stuck)
         ++ [ Commit; Print (nl ++ "✓ Unreserve complete!") ]
         ++ after_header
         ++ map (fun item => Print (after_row (db w3) item)) before_state
         ++ after_footer
    /\ length (map (fun item => Print (after_row (db w3) item)) before_state)
       = length (firstn 20 products)
    /\ Forall (fun item =>
                 search_quants (db w3) (quant_domain (fst item)) = Some [] ->
                 after_row (db w3) item
                 = row (or_str (Snapshot.sku (snd item)) "N/A") "0" "0" "0"
                       (format_0f true (0 - Snapshot.available (snd item))%float))
              before_state.
Proof.
  assert (Hitems : before_state_of e (selected e) (affected_products e)
                   = map (fun p => (p, snapshot_of e (selected e) p))
                         (firstn 20 (affected_products e))).
  { apply before_state_items, unique_NoDup. }
  do 6 eexists.
  split; [apply step1_run |].
  split; [apply step2_run |].
  split; [apply step3_true_run |].
  cbn [db session emit log durable].
  split.
  { rewrite run_true. unfold stuck_pickings. cbn [log session].
    rewrite <- !app_assoc. reflexivity. }
  split; [rewrite Hitems, map_map, map_id; reflexivity |].
  split.
  { rewrite Hitems, map_map, map_id. apply NoDup_firstn, unique_NoDup. }
  split; [reflexivity |].
  split; [rewrite Hitems, !length_map; reflexivity |].
  apply Forall_forall. intros [p b] _ Hnone.
  rewrite search_quants_internal in Hnone. injection Hnone as Hnone.
  unfold after_row, available_of, on_hand_of, reserved_of. cbn [fst snd] in *.
  rewrite Hnone. cbn [map]. rewrite !sum_empty. reflexivity.
Qed.

(** ** Nothing to release *)

(** C10.  With the flag set, if the search selects no move, the run succeeds
    for every release operation and its log is exactly: the two lines of
    STEP 1 with counts 0, the Before header and footer with no row between
    them, the two lines that open the release with 0 pickings, no release
    call, one commit, the closing line, the After header with no row, and
    the final line.  The database is unchanged. *)
Theorem empty_selection_run (do_unreserve : list nat -> erp -> erp) (e : erp) :
  search_moves e stuck_domain = Some [] ->
  exists w,
    run do_unreserve true e = Some w
    /\ release_calls (log w) = []
    /\ commits (log w) = 1
    /\ db w = e /\ durable w = e
    /\ log w
       = [ Print (nl ++ "Found 0 stuck moves before 2024-01-01");
           Print ("Affecting 0 unique products" ++ nl);
           Print (rule "=");
           Print "BEFORE UNRESERVE - Top 20 affected products:";
           Print (rule "=");
           Print (row "SKU" "On Hand" "Reserved" "Available" "Stuck Moves");
           Print (rule "-");
           Print (nl ++ rule "=");
           Print "REVIEW ABOVE. To proceed with unreserve, set DO_UNRESERVE = True and re-run";
           Print (rule "=");
           Print (nl ++ "Unreserving...");
           Print "Processing 0 pickings...";
           Commit;
           Print (nl ++ "✓ Unreserve complete!");
           Print (nl ++ rule "=");
           Print "AFTER UNRESERVE:";
           Print (rule "=");
           Print (row "SKU" "On Hand" "Reserved" "Available" "Delta");
           Print (rule "-");
           Print (nl ++ "✓ Done! Available inventory increased by the delta shown.") ].
Proof.
  intros Hnone. rewrite search_moves_stuck in Hnone. injection Hnone as Hnone.
  eexists. split; [apply run_true |].
  unfold found_lines, before_table, after_table, before_state_of.
  unfold stuck_pickings, affected_products.
  rewrite Hnone. cbn [log db durable].
  repeat split; reflexivity.
Qed.

(** * Further properties of the script *)

(** ** Which pickings are released *)

Lemma present_In (l : list (option nat)) (x : nat) : In x (present l) <-> In (Some x) l.
Proof.
  induction l as [|[y|] r IH]; simpl.
  - tauto.
  - rewrite IH. split; intros [H | H]; auto; left; congruence.
  - rewrite IH. split; [auto | intros [H | H]; [discriminate | assumption]].
Qed.

Lemma mapped_picking_id_In (ms : list Move.t) (pk : nat) :
  In pk (mapped_picking_id ms) <-> exists m, In m ms /\ Move.picking_id m = Some pk.
Proof.
  unfold mapped_picking_id. rewrite unique_In, present_In, in_map_iff.
  split; intros [m [H1 H2]]; exists m; tauto.
Qed.

(** The release calls of a run with the flag set. *)
Lemma run_true_calls (do_unreserve : list nat -> erp -> erp) (e : erp) :
  exists w,
    run do_unreserve true e = Some w
    /\ release_calls (log w)
       = map (fun i => slice (stuck_pickings e) i (i + batch_size))
             (range 0 (length (stuck_pickings e)) batch_size)
    /\ commits (log w) = 1
    /\ db w = released do_unreserve (stuck_pickings e) e.
Proof.
  eexists. split; [apply run_true |]. cbn [log db].
  destruct (before_table_quiet e (selected e) (affected_products e)) as [Hb1 Hb2].
  destruct (after_table_quiet (released do_unreserve (stuck_pickings e) e)
              (before_state_of e (selected e) (affected_products e))) as [Ha1 Ha2].
  split; [| split; [| reflexivity]].
  - rewrite !release_calls_app, Hb1, Ha1, release_log_calls. simpl. apply app_nil_r.
  - rewrite !commits_app, Hb2, Ha2, release_log_commits. reflexivity.
Qed.

(** X1.  With the flag set, a picking is passed to the release operation
    exactly when some selected move belongs to it, and then exactly once in
    the whole run: no picking is released twice, none is missed, whether or
    not its products are among the 20 of the report. *)
Theorem pickings_released_once (do_unreserve : list nat -> erp -> erp) (e : erp) :
  exists w stuck,
    run do_unreserve true e = Some w
    /\ search_moves e stuck_domain = Some stuck
    /\ NoDup (concat (release_calls (log w)))
    /\ forall pk,
         In pk (concat (release_calls (log w)))
         <-> exists m, In m stuck /\ Move.picking_id m = Some pk.
Proof.
  destruct (run_true_calls do_unreserve e) as (w & Hrun & Hcalls & _ & _).
  exists w, (selected e). split; [exact Hrun |].
  split; [apply search_moves_stuck |].
  rewrite Hcalls, batches_cover.
  split; [apply unique_NoDup |].
  intros pk. apply mapped_picking_id_In.
Qed.

(** X2.  With the flag set, if no selected move belongs to a picking, the
    release operation is never called and the database is left as it was,
    however many moves were found; the run still announces 0 pickings and
    commits. *)
Theorem no_picking_no_release (do_unreserve : list nat -> erp -> erp) (e : erp)
        (stuck : list Move.t) :
  search_moves e stuck_domain = Some stuck ->
  Forall (fun m => Move.picking_id m = None) stuck ->
  exists w,
    run do_unreserve true e = Some w
    /\ release_calls (log w) = []
    /\ commits (log w) = 1
    /\ db w = e
    /\ In (Print (nl ++ "Found " ++ str_nat (length stuck)
                     ++ " stuck moves before " ++ cutoff_date)) (log w)
    /\ In (Print "Processing 0 pickings...") (log w).
Proof.
  intros Hsearch Hnone.
  rewrite search_moves_stuck in Hsearch. injection Hsearch as <-.
  assert (Hpk : stuck_pickings e = []).
  { destruct (stuck_pickings e) as [|pk r] eqn:E; [reflexivity |].
    assert (Hin : In pk (stuck_pickings e)) by (rewrite E; left; reflexivity).
    apply mapped_picking_id_In in Hin. destruct Hin as (m & Hm & Hp).
    rewrite Forall_forall in Hnone. rewrite (Hnone m Hm) in Hp. discriminate. }
  eexists. split; [apply run_true |]. cbn [log db]. rewrite Hpk.
  change (release_log []) with (@nil event).
  change (released do_unreserve [] e) with e.
  split.
  { rewrite !release_calls_app, (proj1 (before_table_quiet _ _ _)),
      (proj1 (after_table_quiet _ _)). reflexivity. }
  split.
  { rewrite !commits_app, (proj2 (before_table_quiet _ _ _)),
      (proj2 (after_table_quiet _ _)). reflexivity. }
  split; [reflexivity |].
  split.
  - apply in_or_app. left. left. reflexivity.
  - apply in_or_app. right. apply in_or_app. right.
    apply in_or_app. left. right. left. reflexivity.
Qed.

(** ** The progress lines *)

Lemma firstn_plus {A} (a b : nat) (l : list A) :
  firstn (a + b) l = firstn a l ++ firstn b (skipn a l).
Proof.
  revert l. induction a as [|a IH]; intros l; simpl; [reflexivity |].
  destruct l as [|x r]; simpl.
  - rewrite firstn_nil. reflexivity.
  - rewrite IH. reflexivity.
Qed.

(** The first [j] batches together are the first [n * j] elements. *)
Lemma batches_prefix {A} (n : nat) (l : list A) (j : nat) :
  concat (map (batch_at n l) (seq 0 j)) = firstn (n * j) l.
Proof.
  induction j as [|j IH].
  - rewrite Nat.mul_0_r. reflexivity.
  - rewrite seq_S, map_app, concat_app, IH. simpl. rewrite app_nil_r.
    unfold batch_at. rewrite <- firstn_plus. f_equal. lia.
Qed.

Lemma flat_map_of_map {A B C} (g : A -> B) (f : B -> list C) (l : list A) :
  flat_map f (map g l) = flat_map (fun x => f (g x)) l.
Proof. induction l as [|x r IH]; simpl; [| rewrite IH]; reflexivity. Qed.

Lemma release_log_by_batch (pickings : list nat) :
  release_log pickings
  = flat_map (fun k =>
                [ DoUnreserve (batch_at 100 pickings k);
                  Print ("  Processed "
                           ++ str_nat (length (concat (map (batch_at 100 pickings)
                                                           (seq 0 (S k)))))
                           ++ "/" ++ str_nat (length pickings)) ])
             (seq 0 ((length pickings + 99) / 100)).
Proof.
  unfold release_log, batch_size. rewrite range_multiples by lia.
  rewrite flat_map_of_map. apply flat_map_ext. intros k.
  rewrite slice_batch, batches_prefix. unfold progress, batch_size, batch_at.
  rewrite length_firstn. replace (100 * k + 100) with (100 * S k) by lia.
  reflexivity.
Qed.

(** X3.  With the flag set, between the line that announces the pickings
    and the commit, the run does this and nothing else: for each batch in
    turn, one release call, then one progress line ["  Processed c/N"],
    where [c] is the number of pickings passed to the release operation so
    far (this batch included) and [N] the number of pickings.  So the
    counts grow by the size of each batch and the last line reads [N/N]. *)
Theorem progress_counts_released (do_unreserve : list nat -> erp -> erp) (e : erp) :
  exists w stuck pre post,
    run do_unreserve true e = Some w
    /\ search_moves e stuck_domain = Some stuck
    /\ log w
       = pre
         ++ [ Print ("Processing " ++ str_nat (length (mapped_picking_id stuck))
                                   ++ " pickings...") ]
         ++ flat_map (fun k =>
                [ DoUnreserve (batch_at 100 (mapped_picking_id stuck) k);
                  Print ("  Processed "
                           ++ str_nat (length (concat (map (batch_at 100 (mapped_picking_id stuck))
                                                           (seq 0 (S k)))))
                           ++ "/" ++ str_nat (length (mapped_picking_id stuck))) ])
              (seq 0 ((length (mapped_picking_id stuck) + 99) / 100))
         ++ Commit :: post
    /\ release_calls pre = [] /\ commits pre = 0
    /\ release_calls post = [] /\ commits post = 0
    /\ (forall k, length (concat (map (batch_at 100 (mapped_picking_id stuck)) (seq 0 (S k))))
                  = Nat.min (100 * S k) (length (mapped_picking_id stuck)))
    /\ length (concat (map (batch_at 100 (mapped_picking_id stuck))
                           (seq 0 ((length (mapped_picking_id stuck) + 99) / 100))))
       = length (mapped_picking_id stuck).
Proof.
  destruct (before_table_quiet e (selected e) (affected_products e)) as [Hb1 Hb2].
  destruct (after_table_quiet (released do_unreserve (stuck_pickings e) e)
              (before_state_of e (selected e) (affected_products e))) as [Ha1 Ha2].
  eexists. exists (selected e).
  exists (found_lines e ++ before_table e (selected e) (affected_products e)
            ++ [Print (nl ++ "Unreserving...")]),
         (complete_line :: after_table (released do_unreserve (stuck_pickings e) e)
                             (before_state_of e (selected e) (affected_products e))).
  split; [apply run_true |].
  split; [apply search_moves_stuck |].
  fold (stuck_pickings e). cbn [log].
  split.
  { rewrite release_log_by_batch. unfold unreserving_lines.
    rewrite <- !app_assoc. reflexivity. }
  split; [rewrite !release_calls_app, Hb1; reflexivity |].
  split; [rewrite !commits_app, Hb2; reflexivity |].
  split; [exact Ha1 |]. split; [exact Ha2 |].
  split.
  - intros k. rewrite batches_prefix. apply length_firstn.
  - rewrite batches_prefix, length_firstn.
    pose proof (Nat.div_mod_eq (length (stuck_pickings e) + 99) 100).
    pose proof (Nat.mod_upper_bound (length (stuck_pickings e) + 99) 100). lia.
Qed.

(** ** A dry run, then a real run *)

(** X4.  On the same database, the run with the flag set starts with exactly
    the lines the run with the flag cleared prints before its two closing
    lines: the report reviewed in the dry run is the report of the real
    run.  The dry run leaves the database as it found it, so a real run
    that follows it behaves as a real run alone. *)
Theorem dry_run_then_real_run (do_unreserve : list nat -> erp -> erp) (e : erp) :
  exists wf wt report rest,
    run do_unreserve false e = Some wf
    /\ run do_unreserve true e = Some wt
    /\ log wf = report
                ++ [ Print (nl ++ "DO_UNRESERVE is False - no changes made.");
                     Print "To execute: change DO_UNRESERVE = True and paste script again." ]
    /\ log wt = report ++ Print (nl ++ "Unreserving...") :: rest
    /\ release_calls report = [] /\ commits report = 0
    /\ run do_unreserve true (db wf) = Some wt.
Proof.
  destruct (before_table_quiet e (selected e) (affected_products e)) as [Hb1 Hb2].
  do 2 eexists.
  exists (found_lines e ++ before_table e (selected e) (affected_products e)).
  eexists.
  split; [apply run_false |]. split; [apply run_true |]. cbn [log db].
  split; [rewrite <- app_assoc; reflexivity |].
  split; [rewrite <- app_assoc; reflexivity |].
  split; [rewrite release_calls_app, Hb1; reflexivity |].
  split; [rewrite commits_app, Hb2; reflexivity |].
  apply run_true.
Qed.

(** ** The stuck-move column *)

Lemma count_by_product (ms : list Move.t) (p : nat) :
  stuck_count ms p = length (filter (fun x => x =? p) (map Move.product_id ms)).
Proof.
  unfold stuck_count. induction ms as [|m r IH]; simpl; [reflexivity |].
  destruct (Move.product_id m =? p); simpl; rewrite IH; reflexivity.
Qed.

Lemma stuck_count_positive (ms : list Move.t) (p : nat) :
  In p (map Move.product_id ms) -> 1 <= stuck_count ms p.
Proof.
  intros H. apply in_map_iff in H. destruct H as (m & Hp & Hm).
  unfold stuck_count.
  assert (Hin : In m (filter (fun m0 => Move.product_id m0 =? p) ms)).
  { apply filter_In. split; [exact Hm | apply Nat.eqb_eq, Hp]. }
  destruct (filter (fun m0 => Move.product_id m0 =? p) ms); [contradiction | simpl; lia].
Qed.

Lemma in_firstn_in {A} (n : nat) (l : list A) (x : A) : In x (firstn n l) -> In x l.
Proof.
  intros H. rewrite <- (firstn_skipn n l). apply in_or_app. left. exact H.
Qed.

(** X5.  Every product of the Before table has at least one selected move:
    the entries of [before_state] are for distinct products, each is the
    product of some selected move, and its stuck-move count is the number
    of selected moves of that product, never 0. *)
Theorem reported_products_are_stuck (e : erp) :
  exists stuck products w1 before_state w2,
    step1 (session e) = Some ((stuck, products), w1)
    /\ step2 stuck products w1 = Some (before_state, w2)
    /\ NoDup (map fst before_state)
    /\ Forall (fun item =>
                 1 <= Snapshot.stuck_moves (snd item)
                 /\ Snapshot.stuck_moves (snd item)
                    = length (filter (fun m => Move.product_id m =? fst item) stuck)
                 /\ exists m, In m stuck /\ Move.product_id m = fst item)
              before_state.
Proof.
  do 5 eexists.
  split; [apply step1_run |]. split; [apply step2_run |].
  cbn [db session emit].
  rewrite (before_state_items e (selected e) (affected_products e) (unique_NoDup _)).
  split.
  { rewrite map_map, map_id. apply NoDup_firstn, unique_NoDup. }
  apply Forall_map, Forall_forall. intros p Hp. cbn [fst snd snapshot_of Snapshot.stuck_moves].
  apply in_firstn_in in Hp.
  unfold affected_products, mapped_product_id in Hp. rewrite unique_In in Hp.
  split; [apply stuck_count_positive, Hp |].
  split; [reflexivity |].
  apply in_map_iff in Hp. destruct Hp as (m & Hm & Hin). exists m. tauto.
Qed.

Lemma list_sum_filter_split (f : nat -> nat) (g : nat -> bool) (l : list nat) :
  list_sum (map f l)
  = list_sum (map f (filter g l)) + list_sum (map f (filter (fun x => negb (g x)) l)).
Proof.
  induction l as [|x r IH]; simpl; [reflexivity |].
  destruct (g x); simpl; lia.
Qed.

Lemma list_sum_only (f : nat -> nat) (x : nat) (l : list nat) :
  NoDup l -> (~ In x l -> f x = 0) ->
  list_sum (map f (filter (fun y => y =? x) l)) = f x.
Proof.
  induction l as [|y r IH]; simpl; intros Hnd H0.
  - symmetry. apply H0. tauto.
  - inversion Hnd as [|? ? Hy Hr]; subst.
    destruct (Nat.eqb_spec y x) as [->|Hne]; simpl.
    + assert (Hnone : filter (fun y => y =? x) r = []).
      { clear -Hy. induction r as [|z r IH]; simpl; [reflexivity |].
        simpl in Hy. destruct (Nat.eqb_spec z x); [tauto | apply IH; tauto]. }
      rewrite Hnone. simpl. lia.
    + apply IH; [assumption | intros Hx; apply H0; tauto].
Qed.

(** Counting the occurrences of each distinct element counts everything. *)
Lemma counts_add_up (l : list nat) :
  list_sum (map (fun p => length (filter (fun x => x =? p) l)) (unique l)) = length l.
Proof.
  rewrite unique_first_appearance.
  induction l as [|x r IH].
  - reflexivity.
  - cbn [first_appearance map list_sum].
    assert (Hx : length (filter (fun y => y =? x) (x :: r))
                 = S (length (filter (fun y => y =? x) r))).
    { simpl. rewrite Nat.eqb_refl. reflexivity. }
    assert (Hrest : map (fun p => length (filter (fun y => y =? p) (x :: r)))
                        (filter (fun y => negb (y =? x)) (first_appearance r))
                    = map (fun p => length (filter (fun y => y =? p) r))
                          (filter (fun y => negb (y =? x)) (first_appearance r))).
    { apply map_ext_in. intros p Hp. apply filter_In in Hp. destruct Hp as [_ Hp].
      simpl. destruct (Nat.eqb_spec x p) as [->|Hne]; [| reflexivity].
      rewrite Nat.eqb_refl in Hp. discriminate. }
    rewrite Hx, Hrest.
    rewrite (list_sum_filter_split
               (fun p => length (filter (fun y => y =? p) r))
               (fun y => y =? x) (first_appearance r)) in IH.
    rewrite (list_sum_only (fun p => length (filter (fun y => y =? p) r)) x
                           (first_appearance r)) in IH.
    + cbv beta in IH. unfold list_sum in *. cbn [fold_right]. simpl length. lia.
    + rewrite <- unique_first_appearance. apply unique_NoDup.
    + intros Hx'. rewrite <- unique_first_appearance, unique_In in Hx'.
      destruct (filter (fun y => y =? x) r) as [|z t] eqn:E; [reflexivity |].
      exfalso. apply Hx'.
      assert (Hz : In z (filter (fun y => y =? x) r)) by (rewrite E; left; reflexivity).
      apply filter_In in Hz. destruct Hz as [Hz Hzx].
      apply Nat.eqb_eq in Hzx. subst z. exact Hz.
Qed.

Lemma list_sum_firstn_le (n : nat) (l : list nat) :
  list_sum (firstn n l) <= list_sum l.
Proof.
  revert l. induction n as [|n IH]; intros [|x r]; simpl; try lia.
  specialize (IH r). lia.
Qed.

Lemma unique_from_length (seen l : list nat) : length (unique_from seen l) <= length l.
Proof.
  revert seen. induction l as [|x r IH]; intros seen; simpl; [lia |].
  destruct (existsb (Nat.eqb x) seen); simpl.
  - specialize (IH seen). lia.
  - specialize (IH (x :: seen)). lia.
Qed.

(** X6.  The stuck-move counts recorded for the reported products never
    add up to more than the number of moves found, and add up to exactly
    that number when at most 20 products are affected; there are never more
    affected products than moves found. *)
Theorem stuck_counts_add_up (e : erp) :
  exists stuck products w1 before_state w2,
    step1 (session e) = Some ((stuck, products), w1)
    /\ step2 stuck products w1 = Some (before_state, w2)
    /\ In (Print (nl ++ "Found " ++ str_nat (length stuck)
                     ++ " stuck moves before " ++ cutoff_date)) (log w1)
    /\ length products <= length stuck
    /\ list_sum (map (fun item => Snapshot.stuck_moves (snd item)) before_state)
       <= length stuck
    /\ (length products <= 20 ->
        list_sum (map (fun item => Snapshot.stuck_moves (snd item)) before_state)
        = length stuck).
Proof.
  do 5 eexists.
  split; [apply step1_run |]. split; [apply step2_run |].
  cbn [db session emit log].
  split; [left; reflexivity |].
  rewrite (before_state_items e (selected e) (affected_products e) (unique_NoDup _)).
  rewrite map_map. cbn [snd snapshot_of Snapshot.stuck_moves].
  assert (Htotal : list_sum (map (fun p => stuck_count (selected e) p)
                                 (affected_products e)) = length (selected e)).
  { unfold affected_products, mapped_product_id.
    rewrite (map_ext _ (fun p => length (filter (fun x => x =? p)
                                                (map Move.product_id (selected e)))))
      by (intros p; apply count_by_product).
    rewrite counts_add_up. apply length_map. }
  split.
  { unfold affected_products, mapped_product_id, unique.
    rewrite <- (length_map Move.product_id (selected e)).
    apply unique_from_length. }
  split.
  { rewrite <- Htotal, <- firstn_map. apply list_sum_firstn_le. }
  intros Hle. rewrite firstn_all2 by exact Hle. exact Htotal.
Qed.

(** ** The After table, end to end *)

(** X7.  With the flag set, the After table has one row per reported
    product, in report order.  The row of product [p] shows the SKU that [p]
    had before the release (the one of the Before table, whatever the
    release did to it), the three quantities of [p] in the database after
    the release, and as delta the available quantity after the release
    minus the available quantity before it. *)
Theorem after_rows_end_to_end (do_unreserve : list nat -> erp -> erp) (e : erp) :
  exists w stuck pre,
    run do_unreserve true e = Some w
    /\ search_moves e stuck_domain = Some stuck
    /\ log w
       = pre ++ after_header
           ++ map (fun p =>
                     Print (row (or_str (default_code e p) "N/A")
                                (format_0f false (on_hand_of (db w) p))
                                (format_0f false (reserved_of (db w) p))
                                (format_0f false (available_of (db w) p))
                                (format_0f true (available_of (db w) p
                                                 - available_of e p)%float)))
                  (firstn 20 (mapped_product_id stuck))
           ++ after_footer
    /\ map (fun p => Print (row (or_str (default_code e p) "N/A")
                                (format_0f false (on_hand_of e p))
                                (format_0f false (reserved_of e p))
                                (format_0f false (available_of e p))
                                (str_nat (stuck_count stuck p))))
           (firstn 20 (mapped_product_id stuck))
       = firstn (length (firstn 20 (mapped_product_id stuck))) (skipn 7 (log w)).
Proof.
  eexists. exists (selected e).
  exists (found_lines e ++ before_table e (selected e) (affected_products e)
            ++ unreserving_lines (stuck_pickings e) ++ release_log (stuck_pickings e)
            ++ [Commit; complete_line]).
  split; [apply run_true |]. split; [apply search_moves_stuck |].
  cbn [log db].
  rewrite (before_state_items e (selected e) (affected_products e) (unique_NoDup _)).
  unfold after_table. rewrite map_map.
  fold (affected_products e).
  split.
  - rewrite <- !app_assoc. reflexivity.
  - unfold before_table. cbn [fst snd].
    rewrite <- !app_assoc. rewrite (app_assoc (found_lines e) before_header).
    rewrite skipn_app.
    change (skipn 7 (found_lines e ++ before_header)) with (@nil event).
    change (7 - length (found_lines e ++ before_header)) with 0.
    cbn [skipn app].
    rewrite firstn_app, length_map, Nat.sub_diag.
    rewrite <- (length_map (fun p => Print (before_row e (selected e) p))
                          (firstn 20 (affected_products e))) at 1.
    rewrite firstn_all. cbn [firstn]. rewrite app_nil_r. reflexivity.
Qed.

(** ** The width of the tables *)







End Interpreter.

(** ** The claims on the example database *)

Local Open Scope nat_scope.

(** C3.  The flag on line 63 is shipped set.  On either interpreter, a
    first run of the script as shipped on the example database, before any
    review, calls the release operation on pickings 7 and 8, commits once,
    and leaves the reservation of quant 2 cleared in the durable
    database. *)
Theorem shipped_run_releases (python : Py.version) :
  DO_UNRESERVE = true
  /\ exists w,
       run python Fixture.do_unreserve DO_UNRESERVE Fixture.shop = Some w
       /\ release_calls (log w) = [[7; 8]]
       /\ commits (log w) = 1
       /\ map Quant.reserved_quantity (quants Fixture.shop) = [3; 5; 4]%float
       /\ map Quant.reserved_quantity (quants (durable w)) = [3; 0; 4]%float.
Proof.
  split; [reflexivity |].
  destruct python; eexists; (split; [vm_compute; reflexivity |]);
    repeat split; vm_compute; reflexivity.
Qed.

(** On the example database product 10 has exactly the quants (10, 3) and
    (5, 5) in internal locations, and two stuck moves. *)
Lemma snapshot_reporter_witness :
  In 10 (firstn 20 [10; 12])
  /\ exists before_state w' s,
       step2 Py.From312 (selected Fixture.shop) [10; 12] (session Fixture.shop)
       = Some (before_state, w')
       /\ dict_get before_state 10 = Some s
       /\ Snapshot.on_hand s = 15%float
       /\ Snapshot.reserved s = 8%float
       /\ Snapshot.available s = 7%float
       /\ Snapshot.stuck_moves s = 2.
Proof.
  split; [left; reflexivity |].
  destruct (snapshot_reporter Py.From312 (selected Fixture.shop) [10; 12] (session Fixture.shop) 10
                              (or_introl eq_refl))
    as (d & w' & s & Hrun & _ & _ & Hget & _ & _ & _ & Hcount & _ & Hex).
  exists d, w', s. destruct (Hex eq_refl) as (H1 & H2 & H3).
  repeat split; assumption.
Defined.

(** After picking 8 is released on the example database, product 10 has
    15 on hand and 3 reserved, so 12 available; 7 were recorded before. *)
Lemma delta_reporter_witness :
  In (10, Snapshot.mk (Some "SKU-10") 15 8 7 2) [(10, Snapshot.mk (Some "SKU-10") 15 8 7 2)]
  /\ exists w',
       step4 Py.From312 [(10, Snapshot.mk (Some "SKU-10") 15 8 7 2)]
             (session (Fixture.do_unreserve [7; 8] Fixture.shop)) = Some (tt, w')
       /\ In (Print (row "SKU-10" "15" "3" "12" "+5")) (log w').
Proof.
  split; [left; reflexivity |].
  destruct (delta_reporter Py.From312 [(10, Snapshot.mk (Some "SKU-10") 15 8 7 2)]
              (session (Fixture.do_unreserve [7; 8] Fixture.shop))
              10 (Snapshot.mk (Some "SKU-10") 15 8 7 2) (or_introl eq_refl))
    as (w' & oh & rs & av & dl & Hrun & _ & _ & _ & Hoh & Hrs & Hav & _ & _ & _ & _ & Hex).
  exists w'. split; [exact Hrun |].
  assert (Hav12 : av = 12%float) by (rewrite Hav, Hoh, Hrs; reflexivity).
  destruct (Hex eq_refl Hav12) as (_ & _ & Hrow).
  rewrite Hoh, Hrs in Hrow. exact Hrow.
Defined.

(** Product 12 of the example database has no quant at all. *)
Lemma no_quants_is_zero_witness :
  search_quants (db (session Fixture.shop)) (quant_domain 12) = Some []
  /\ (exists d w' s,
        step2 Py.Before312 (selected Fixture.shop) [10; 12] (session Fixture.shop) = Some (d, w')
        /\ dict_get d 12 = Some s
        /\ Snapshot.on_hand s = 0%float
        /\ Snapshot.reserved s = 0%float
        /\ Snapshot.available s = 0%float)
  /\ (exists w',
        step4 Py.Before312 [(12, Snapshot.mk None 0 0 0 1)] (session Fixture.shop) = Some (tt, w')
        /\ In (Print (row "N/A" "0" "0" "0" "+0")) (log w')).
Proof.
  split; [reflexivity |].
  destruct (no_quants_is_zero Py.Before312 (selected Fixture.shop) [10; 12]
              [(12, Snapshot.mk None 0 0 0 1)] (session Fixture.shop)
              12 (Snapshot.mk None 0 0 0 1)
              eq_refl (or_intror (or_introl eq_refl)) (or_introl eq_refl))
    as [(d & w' & s & Hrun & Hget & H1 & H2 & H3 & _) (w4 & Hrun4 & Hrow)].
  split.
  - exists d, w', s. repeat split; assumption.
  - exists w4. split; assumption.
Defined.

(** The empty database selects nothing. *)
Lemma empty_selection_run_witness :
  search_moves Fixture.empty stuck_domain = Some []
  /\ exists w,
       run Py.From312 Fixture.do_unreserve true Fixture.empty = Some w
       /\ release_calls (log w) = []
       /\ commits (log w) = 1
       /\ length (log w) = 20.
Proof.
  split; [reflexivity |].
  destruct (empty_selection_run Py.From312 Fixture.do_unreserve Fixture.empty eq_refl)
    as (w & Hrun & Hcalls & Hcommits & _ & _ & Hlog).
  exists w. repeat split; try assumption. rewrite Hlog. reflexivity.
Defined.

(** On the example database the run prints 18 lines up to the end of the
    release; the After table then has the rows of products 10 and 12, in
    the order they were recorded.  Product 12 has no quant. *)
Lemma after_report_rows_witness :
  exists w,
    run Py.From312 Fixture.do_unreserve true Fixture.shop = Some w
    /\ search_quants (db w) (quant_domain 12) = Some []
    /\ skipn 18 (log w)
       = after_header
           ++ [ Print (row "SKU-10" "15" "3" "12" "+5");
                Print (row "N/A" "0" "0" "0" "+0") ]
           ++ after_footer.
Proof.
  destruct (after_report_rows Py.From312 Fixture.do_unreserve Fixture.shop)
    as (stuck & products & w1 & d & w2 & w3
        & H1 & H2 & H3 & Hrun & Hkeys & Hnodup & Hlog & Hlen & Hzero).
  vm_compute in H1. injection H1 as <- <- <-.
  vm_compute in H2. injection H2 as <- <-.
  exists w3. split; [exact Hrun |].
  vm_compute in Hrun. injection Hrun as <-.
  split; [reflexivity |].
  rewrite Hlog. vm_compute. reflexivity.
Defined.

(** ** The further properties on the example databases *)

(** The two stuck moves of [Orphans.shop] belong to no picking. *)
Lemma no_picking_no_release_witness :
  search_moves Orphans.shop stuck_domain = Some (moves Orphans.shop)
  /\ Forall (fun m => Move.picking_id m = None) (moves Orphans.shop)
  /\ exists w,
       run Py.From312 Fixture.do_unreserve true Orphans.shop = Some w
       /\ release_calls (log w) = []
       /\ commits (log w) = 1
       /\ In (Print (Py.nl ++ "Found 2 stuck moves before 2024-01-01")) (log w).
Proof.
  split; [reflexivity |].
  assert (Hnone : Forall (fun m => Move.picking_id m = None) (moves Orphans.shop)).
  { repeat constructor. }
  split; [exact Hnone |].
  destruct (no_picking_no_release Py.From312 Fixture.do_unreserve Orphans.shop
              (moves Orphans.shop) eq_refl Hnone)
    as (w & Hrun & Hcalls & Hcommits & _ & Hfound & _).
  exists w. repeat split; assumption.
Defined.

(** On [Fixture.shop] two products are affected, by 2 and 1 of the 3 moves
    found. *)
Lemma stuck_counts_add_up_witness :
  exists stuck products w1 before_state w2,
    step1 (session Fixture.shop) = Some ((stuck, products), w1)
    /\ step2 Py.From312 stuck products w1 = Some (before_state, w2)
    /\ length products <= 20
    /\ list_sum (map (fun item => Snapshot.stuck_moves (snd item)) before_state)
       = length stuck
    /\ length stuck = 3.
Proof.
  destruct (stuck_counts_add_up Py.From312 Fixture.shop)
    as (stuck & products & w1 & d & w2 & H1 & H2 & _ & _ & _ & Hsum).
  exists stuck, products, w1, d, w2.
  split; [exact H1 |]. split; [exact H2 |].
  assert (Hs : stuck = selected Fixture.shop /\ products = [10; 12]).
  { vm_compute in H1. injection H1 as <- <- _. split; reflexivity. }
  destruct Hs as [-> ->].
  split; [simpl; repeat constructor |].
  split; [apply Hsum; simpl; repeat constructor | reflexivity].
Defined.
